(** * Location: the security-gated navigation object of LibWeb

    A shallow embedding of [Libraries/LibWeb/HTML/Location.cpp].  Every
    method of [Web::HTML::Location] is a function over an explicit [World]
    (the objects the method reads, plus the list of requests it hands to
    navigables).  The libraries that [Location.cpp] only calls (LibURL's
    parser and serializer, the origin predicate, the environment settings
    object's URL parsing, [Navigable::navigate], LibJS's ordinary object
    operations) are interfaces: type classes whose instances are arbitrary,
    so every theorem holds for whatever those libraries compute. *)

From Stdlib Require Import String Ascii List Bool NArith Lia DecimalString.
Import ListNotations.

Set Implicit Arguments.
Local Open Scope string_scope.

(** ** AK: the string helpers used by [Location.cpp] *)
Module AK.

(** Modelled from the spec: [String::is_empty] of AK, which is outside the
    files at hand; the empty string test of the setters ("if the given value
    is the empty string"). *)
Definition is_empty (s : string) : bool :=
  match s with
  | EmptyString => true
  | String _ _ => false
  end.

(** Modelled from the spec: [StringView::starts_with(char)] of AK; the test
    behind "a single leading ? or # removed, if any" (spec section 4.4). *)
Definition starts_with (s : string) (c : ascii) : bool :=
  match s with
  | EmptyString => false
  | String c' _ => Ascii.eqb c' c
  end.

(** Modelled from the spec: [StringView::substring_view(start)] of AK: the
    suffix from [start]; the source only passes a start that is at most the
    length. *)
Fixpoint substring_view (start : nat) (s : string) : string :=
  match start, s with
  | O, _ => s
  | S n, String _ rest => substring_view n rest
  | S _, EmptyString => EmptyString
  end.

(** A [bool] used as a [size_t], as in
    [value.substring_view(value.starts_with('#'))]. *)
Definition size_of_bool (b : bool) : nat := if b then 1 else 0.

(** Modelled from the spec: [String::number] of AK on an unsigned value,
    the port serialized: its decimal digits. *)
Definition number (n : N) : string := NilZero.string_of_uint (N.to_uint n).

(** Modelled from the spec: [Vector::contains_slow] of AK, the membership
    test of the default-property set (spec section 4.5): a linear search
    with the element equality. *)
Fixpoint contains_slow {A : Type} (eqb : A -> A -> bool) (v : list A) (x : A) : bool :=
  match v with
  | [] => false
  | y :: rest => if eqb y x then true else contains_slow eqb rest x
  end.

End AK.

(** ** WebIDL: exceptions and the result of a fallible call *)
Module WebIDL.

(** The two DOM exceptions [Location.cpp] creates, with their message. *)
Inductive DOMException : Type :=
| SecurityError (message : string)
| SyntaxError (message : string).

(** What a call produces: [WebIDL::ExceptionOr<T>] (and
    [JS::ThrowCompletionOr<T>]) is a value or a thrown exception; [Crashed]
    is the process abort of a failed [VERIFY]/[MUST] or of a null
    dereference. *)
Inductive Result (A : Type) : Type :=
| Returned (value : A)
| Thrown (exception : DOMException)
| Crashed.

Arguments Thrown {A} exception.
Arguments Crashed {A}.

Definition is_security_error {A} (r : Result A) : bool :=
  match r with
  | Thrown (SecurityError _) => true
  | _ => false
  end.

Definition is_syntax_error {A} (r : Result A) : bool :=
  match r with
  | Thrown (SyntaxError _) => true
  | _ => false
  end.

End WebIDL.
Export WebIDL.

(** ** LibURL: the URL record and the interface of its library *)
Module URL.

(** [URL::Parser::State], the states of the parser (spec section 4.1);
    [Location.cpp] names [SchemeStart], [Host], [Hostname], [Port],
    [PathStart], [Query] and [Fragment]. *)
Inductive State : Type :=
| SchemeStart | Scheme | NoScheme | SpecialRelativeOrAuthority
| PathOrAuthority | Relative | RelativeSlash | SpecialAuthoritySlashes
| SpecialAuthorityIgnoreSlashes | Authority | Host | Hostname | Port
| File | FileSlash | FileHost | PathStart | Path | OpaquePath | Query
| Fragment.

(** The host of a URL record (spec section 3); absence is [None] in the
    record below. *)
Inductive HostValue : Type :=
| EmptyHost
| Domain (name : string)
| IPv4 (address : N)
| IPv6 (groups : list N)
| OpaqueHost (text : string).

(** The URL record (spec section 3).  The path is a list of segments, or
    one opaque string held as the only segment when [has_an_opaque_path]. *)
Record t : Type := mk {
  scheme : string;
  username : string;
  password : string;
  host : option HostValue;
  port : option N;
  paths : list string;
  has_an_opaque_path : bool;
  query : option string;
  fragment : option string
}.

(** Modelled from the spec: the setters of [URL::URL] that [Location.cpp]
    calls, on the arguments it passes ([set_port({})], [set_paths({})],
    [set_query({})], [set_query(String {})], [set_fragment(String {})]): each
    stores its argument in the field, the rest of the record as it was. *)
Definition set_port (p : option N) (u : t) : t :=
  mk (scheme u) (username u) (password u) (host u) p (paths u)
     (has_an_opaque_path u) (query u) (fragment u).

Definition set_paths (ps : list string) (u : t) : t :=
  mk (scheme u) (username u) (password u) (host u) (port u) ps
     (has_an_opaque_path u) (query u) (fragment u).

Definition set_query (q : option string) (u : t) : t :=
  mk (scheme u) (username u) (password u) (host u) (port u) (paths u)
     (has_an_opaque_path u) q (fragment u).

Definition set_fragment (f : option string) (u : t) : t :=
  mk (scheme u) (username u) (password u) (host u) (port u) (paths u)
     (has_an_opaque_path u) (query u) f.

(** Modelled from the spec: [URL::cannot_have_a_username_or_password_or_port]
    is declared in LibURL, outside the files at hand; spec section 3 gives
    the derived flag as true when the host is absent or the scheme is
    file. *)
Definition cannot_have_a_username_or_password_or_port (u : t) : bool :=
  match host u with
  | None => true
  | Some _ => String.eqb (scheme u) "file"
  end.

(** Modelled from the spec: [URL::about_blank], the fixed sentinel of a
    Location without a document (spec section 3): scheme about, opaque
    path blank, nothing else. *)
Definition about_blank : t :=
  mk "about" EmptyString EmptyString None None ["blank"] true None None.

End URL.

(** The part of LibURL that [Location.cpp] calls and that is an interface
    here.  [basic_parse input url state_override] is
    [URL::Parser::basic_parse(input, {}, &url, state_override)]: the parser
    writes into the record it is given, so the call yields the record as the
    parser left it and whether the returned [Optional<URL>] has a value. *)
Class LibURL (Origin : Type) : Type := {
  basic_parse : string -> URL.t -> URL.State -> URL.t * bool;
  serialize : URL.t -> string;
  serialized_host : URL.t -> string;
  serialize_path : URL.t -> string;
  url_origin : URL.t -> Origin;
  origin_serialize : Origin -> string;
  is_same_origin_domain : Origin -> Origin -> bool
}.

(** ** LibJS: values, property keys and descriptors *)
Module JS.

(** The values [Location.cpp] handles: strings and symbols (property keys
    as values), [undefined], and objects such as the [valueOf] function. *)
Inductive Value : Type :=
| Undefined
| StringValue (text : string)
| SymbolValue (symbol : N)
| ObjectValue (identity : N).

(** Modelled from the spec: equality of [JS::Value]s as the search over
    [m_default_properties] uses it, the set being one of identifier keys
    (spec section 9): strings by content, symbols and objects by identity. *)
Definition Value_eqb (a b : Value) : bool :=
  match a, b with
  | Undefined, Undefined => true
  | StringValue s, StringValue s' => String.eqb s s'
  | SymbolValue n, SymbolValue n' => N.eqb n n'
  | ObjectValue n, ObjectValue n' => N.eqb n n'
  | _, _ => false
  end.

(** [JS::PropertyKey]: an index, a string or a symbol. *)
Inductive PropertyKey : Type :=
| NumberKey (index : N)
| StringKey (text : string)
| SymbolKey (symbol : N).

Definition is_symbol (key : PropertyKey) : bool :=
  match key with
  | SymbolKey _ => true
  | _ => false
  end.

(** Modelled from the spec: [PropertyKey::to_string] of LibJS, for a key
    that is not a symbol: the text of a string key, the digits of an index. *)
Definition to_string (key : PropertyKey) : string :=
  match key with
  | NumberKey index => AK.number index
  | StringKey text => text
  | SymbolKey _ => EmptyString
  end.

(** [JS::PropertyDescriptor]: every field may be absent. *)
Record PropertyDescriptor : Type := mkDescriptor {
  value : option Value;
  get : option Value;
  set : option Value;
  writable : option bool;
  enumerable : option bool;
  configurable : option bool
}.

(** [descriptor.configurable = c]. *)
Definition set_configurable (c : bool) (d : PropertyDescriptor) : PropertyDescriptor :=
  mkDescriptor (value d) (get d) (set d) (writable d) (enumerable d) (Some c).

(** Modelled from the spec: how a property key stands in a set of
    identifier keys such as [[DefaultProperties]] (spec section 9), which the
    key enumeration of LibJS, outside the files at hand, fills: a symbol as
    itself, a string as a string, an index as the string of its digits. *)
Definition listed_as (key : PropertyKey) : Value :=
  match key with
  | NumberKey index => StringValue (AK.number index)
  | StringKey text => StringValue text
  | SymbolKey symbol => SymbolValue symbol
  end.

End JS.

(** The operations of [JS::Object], of the bindings and of
    [CrossOrigin/AbstractOperations] that the object side of [Location.cpp]
    calls.  [Object] is the state of the base [JS::Object] (its property
    storage and prototype) and [VM] the running script context, from which
    the same-origin test takes its caller. *)
Class LibJS (Object VM : Type) : Type := {
  Object_internal_get_own_property :
    Object -> JS.PropertyKey -> Result (option JS.PropertyDescriptor);
  Object_internal_define_own_property :
    Object -> JS.PropertyKey -> JS.PropertyDescriptor -> Result bool * Object;
  Object_internal_delete : Object -> JS.PropertyKey -> Result bool * Object;
  Object_internal_set :
    Object -> JS.PropertyKey -> JS.Value -> JS.Value -> Result bool * Object;
  Object_internal_own_property_keys : Object -> Result (list JS.Value);
  set_prototype_for_interface : Object -> Object;
  Base_initialize : Object -> Object;
  define_unforgeable_attributes : Object -> Object;
  object_prototype_value_of : VM -> JS.Value;
  well_known_symbol_to_primitive : VM -> JS.PropertyKey;
  is_platform_object_same_origin : VM -> Object -> bool;
  cross_origin_get_own_property_helper :
    VM -> Object -> JS.PropertyKey -> option JS.PropertyDescriptor;
  cross_origin_property_fallback :
    VM -> JS.PropertyKey -> Result (option JS.PropertyDescriptor);
  cross_origin_set :
    VM -> Object -> JS.PropertyKey -> JS.Value -> JS.Value -> Result bool * Object
}.

(** ** The objects a Location reaches *)
Module DOM.

(** A navigable is known by its identity. *)
Definition Navigable : Type := N.

Record Document (Origin : Type) : Type := mkDocument {
  url : URL.t;
  origin : Origin;
  is_completely_loaded : bool;
  navigable : Navigable
}.

End DOM.

Module HTML.

(** [Bindings::NavigationHistoryBehavior], the IDL enumeration. *)
Inductive NavigationHistoryBehavior : Type :=
| Auto
| Push
| Replace.

Record BrowsingContext (Origin : Type) : Type := mkBrowsingContext {
  active_document : option (DOM.Document Origin)
}.

Record Window (Origin : Type) : Type := mkWindow {
  browsing_context : option (BrowsingContext Origin);
  navigable : DOM.Navigable;
  associated_document : DOM.Document Origin;
  has_transient_activation : bool
}.

(** An environment settings object: its origin and the base URL its
    [parse_url] and [encoding_parse_url] resolve against. *)
Record EnvironmentSettingsObject (Origin : Type) : Type := mkSettings {
  settings_origin : Origin;
  api_base_url : URL.t
}.

(** The argument of [Navigable::navigate], with the fields [Location.cpp]
    sets. *)
Record NavigateParams (Origin : Type) : Type := mkNavigateParams {
  params_url : URL.t;
  source_document : DOM.Document Origin;
  exceptions_enabled : bool;
  history_handling : NavigationHistoryBehavior
}.

(** What a Location hands to a navigable. *)
Inductive Request (Origin : Type) : Type :=
| NavigateRequest (target : DOM.Navigable) (params : NavigateParams Origin)
| ReloadRequest (target : DOM.Navigable).

Arguments NavigateRequest {Origin} target params.
Arguments ReloadRequest {Origin} target.

(** The state a Location method runs in: the global objects and settings
    object it consults, and the requests navigables have received so far,
    oldest first. *)
Record World (Origin : Type) : Type := mkWorld {
  relevant_global_object : Window Origin;
  incumbent_global_object : Window Origin;
  entry_settings_object : EnvironmentSettingsObject Origin;
  dispatched : list (Request Origin)
}.

Definition with_dispatched {Origin} (rs : list (Request Origin)) (w : World Origin)
  : World Origin :=
  mkWorld (relevant_global_object w) (incumbent_global_object w)
          (entry_settings_object w) rs.

(** Modelled from the spec: the default value of the [history_handling]
    parameter of [Location::navigate], which [Location.h] declares outside
    the files at hand; spec section 4.4 gives the default history-handling
    mode as "push". *)
Definition declared_default_history_handling : NavigationHistoryBehavior := Push.

End HTML.
Export HTML.

(** The platform around a Location: URL parsing relative to a settings
    object, the outcome of [Navigable::navigate] (which may throw, since
    exceptions are enabled), and the default value of the [history_handling]
    parameter of [Location::navigate], which [Location.h] declares. *)
Class Platform (Origin : Type) : Type := {
  parse_url : EnvironmentSettingsObject Origin -> string -> option URL.t;
  encoding_parse_url : EnvironmentSettingsObject Origin -> string -> option URL.t;
  navigate_outcome : World Origin -> DOM.Navigable -> NavigateParams Origin -> Result unit;
  default_history_handling : NavigationHistoryBehavior
}.


(** The rest of [JS::Object] and of [CrossOrigin/AbstractOperations] that
    the object side calls: prototypes (an object by its identity, or null),
    [[Get]] and the key enumerations.  The cache metadata and lookup phase
    that [internal_get] passes on to [JS::Object] unchanged are left out. *)
Class LibJSObject (Object VM : Type) : Type := {
  Object_internal_get_prototype_of : Object -> Result (option N);
  Object_set_immutable_prototype : Object -> option N -> Result bool;
  Object_internal_get : Object -> JS.PropertyKey -> JS.Value -> Result JS.Value;
  cross_origin_get : VM -> Object -> JS.PropertyKey -> JS.Value -> Result JS.Value;
  cross_origin_own_property_keys : Object -> list JS.Value
}.

(** ** Location.cpp *)
Module Location.

Section Methods.

Context {Origin : Type} {liburl : LibURL Origin} {platform : Platform Origin}.

(** A method that may change the world: it yields its result and the world
    it leaves. *)
Definition M (A : Type) : Type := World Origin -> Result A * World Origin.

(** [return value;] *)
Definition ret {A} (value : A) : M A := fun w => (Returned value, w).

(** [return WebIDL::...Error::create(...);] *)
Definition throw {A} (exception : DOMException) : M A := fun w => (Thrown exception, w).

(** [TRY(c)] followed by [k]: an exception of [c] leaves the method at once. *)
Definition bind {A B} (c : M A) (k : A -> M B) : M B := fun w =>
  match c w with
  | (Returned value, w') => k value w'
  | (Thrown exception, w') => (Thrown exception, w')
  | (Crashed, w') => (Crashed, w')
  end.

Notation "'TRY' c ;; k" := (bind c (fun _ => k))
  (at level 61, c at next level, right associativity).

(** The message of every same origin-domain refusal. *)
Definition not_same_origin_domain_message : string :=
  "Location's relevant document is not same origin-domain with the entry settings object's origin".

(** [relevant_document->origin().is_same_origin_domain(entry_settings_object().origin())] *)
Definition same_origin_domain_with_entry (document : DOM.Document Origin) (w : World Origin)
  : bool :=
  is_same_origin_domain (DOM.origin document) (settings_origin (entry_settings_object w)).

(** [Location::relevant_document]: the active document of the browsing
    context of the relevant global object, null without a browsing context. *)
Definition relevant_document (w : World Origin) : option (DOM.Document Origin) :=
  match browsing_context (relevant_global_object w) with
  | Some context => active_document context
  | None => None
  end.

(** Modelled from the spec: [Navigable::navigate(params)] on [target], of
    the navigation dispatcher, which is outside the files at hand: navigation
    is requested, not awaited (spec section 5), so the navigable receives the
    request; what the call returns is the platform's. *)
Definition Navigable_navigate (target : DOM.Navigable) (params : NavigateParams Origin)
  : M unit := fun w =>
  (navigate_outcome w target params,
   with_dispatched (dispatched w ++ [NavigateRequest target params]) w).

(** Modelled from the spec: [Navigable::reload()] on [target], the reload
    operation of the dispatcher: the navigable receives the request. *)
Definition Navigable_reload (target : DOM.Navigable) (w : World Origin) : World Origin :=
  with_dispatched (dispatched w ++ [ReloadRequest target]) w.

(** [Location::navigate(url, history_handling)]. *)
Definition navigate (url : URL.t) (history_handling : NavigationHistoryBehavior)
  : M unit := fun w =>
  let navigable := HTML.navigable (relevant_global_object w) in
  let source_document := associated_document (incumbent_global_object w) in
  match relevant_document w with
  | None => (Crashed, w)
  | Some document =>
    let history_handling :=
      if negb (DOM.is_completely_loaded document)
         && negb (has_transient_activation (incumbent_global_object w))
      then Replace
      else history_handling in
    (TRY Navigable_navigate navigable
           (mkNavigateParams url source_document true history_handling) ;;
     ret tt) w
  end.

(** [Location::url]. *)
Definition url (w : World Origin) : URL.t :=
  match relevant_document w with
  | Some document => DOM.url document
  | None => URL.about_blank
  end.

(** The test that opens every getter:
    [relevant_document && !relevant_document->origin().is_same_origin_domain(...)]. *)
Definition document_is_not_same_origin_domain (w : World Origin) : bool :=
  match relevant_document w with
  | Some document => negb (same_origin_domain_with_entry document w)
  | None => false
  end.

(** [Location::href]. *)
Definition href (w : World Origin) : Result string :=
  if document_is_not_same_origin_domain w
  then Thrown (SecurityError not_same_origin_domain_message)
  else Returned (serialize (url w)).

(** [Location::set_href]. *)
Definition set_href (new_href : string) : M unit := fun w =>
  match relevant_document w with
  | None => ret tt w
  | Some _ =>
    match encoding_parse_url (entry_settings_object w) new_href with
    | None => throw (SyntaxError ("Invalid URL '" ++ new_href ++ "'")) w
    | Some url => (TRY navigate url default_history_handling ;; ret tt) w
    end
  end.

(** [Location::origin]. *)
Definition origin (w : World Origin) : Result string :=
  if document_is_not_same_origin_domain w
  then Thrown (SecurityError not_same_origin_domain_message)
  else Returned (origin_serialize (url_origin (url w))).

(** [Location::protocol]. *)
Definition protocol (w : World Origin) : Result string :=
  if document_is_not_same_origin_domain w
  then Thrown (SecurityError not_same_origin_domain_message)
  else Returned (URL.scheme (url w) ++ ":").

(** [Location::set_protocol]. *)
Definition set_protocol (value : string) : M unit := fun w =>
  match relevant_document w with
  | None => ret tt w
  | Some document =>
    if negb (same_origin_domain_with_entry document w)
    then throw (SecurityError not_same_origin_domain_message) w
    else
      let copy_url := url w in
      let (copy_url, possible_failure) :=
        basic_parse (value ++ ":") copy_url URL.SchemeStart in
      if negb possible_failure
      then throw (SyntaxError ("Failed to set protocol. '" ++ value
                               ++ "' is an invalid protocol")) w
      else if negb (String.eqb (URL.scheme copy_url) "http"
                    || String.eqb (URL.scheme copy_url) "https")
      then ret tt w
      else (TRY navigate copy_url default_history_handling ;; ret tt) w
  end.

(** [Location::host]. *)
Definition host (w : World Origin) : Result string :=
  if document_is_not_same_origin_domain w
  then Thrown (SecurityError not_same_origin_domain_message)
  else
    let url := url w in
    match URL.host url with
    | None => Returned EmptyString
    | Some _ =>
      match URL.port url with
      | None => Returned (serialized_host url)
      | Some port => Returned (serialized_host url ++ ":" ++ AK.number port)
      end
    end.

(** [Location::set_host]. *)
Definition set_host (value : string) : M unit := fun w =>
  match relevant_document w with
  | None => ret tt w
  | Some document =>
    if negb (same_origin_domain_with_entry document w)
    then throw (SecurityError not_same_origin_domain_message) w
    else
      let copy_url := url w in
      if URL.has_an_opaque_path copy_url
      then ret tt w
      else
        let copy_url := fst (basic_parse value copy_url URL.Host) in
        (TRY navigate copy_url default_history_handling ;; ret tt) w
  end.

(** [Location::hostname]. *)
Definition hostname (w : World Origin) : Result string :=
  if document_is_not_same_origin_domain w
  then Thrown (SecurityError not_same_origin_domain_message)
  else
    let url := url w in
    match URL.host url with
    | None => Returned EmptyString
    | Some _ => Returned (serialized_host url)
    end.

(** [Location::set_hostname]. *)
Definition set_hostname (value : string) : M unit := fun w =>
  match relevant_document w with
  | None => ret tt w
  | Some document =>
    if negb (same_origin_domain_with_entry document w)
    then throw (SecurityError not_same_origin_domain_message) w
    else
      let copy_url := url w in
      if URL.has_an_opaque_path copy_url
      then ret tt w
      else
        let copy_url := fst (basic_parse value copy_url URL.Hostname) in
        (TRY navigate copy_url default_history_handling ;; ret tt) w
  end.

(** [Location::port]. *)
Definition port (w : World Origin) : Result string :=
  if document_is_not_same_origin_domain w
  then Thrown (SecurityError not_same_origin_domain_message)
  else
    let url := url w in
    match URL.port url with
    | None => Returned EmptyString
    | Some port => Returned (AK.number port)
    end.

(** [Location::set_port]. *)
Definition set_port (value : string) : M unit := fun w =>
  match relevant_document w with
  | None => ret tt w
  | Some document =>
    if negb (same_origin_domain_with_entry document w)
    then throw (SecurityError not_same_origin_domain_message) w
    else
      let copy_url := url w in
      if URL.cannot_have_a_username_or_password_or_port copy_url
      then ret tt w
      else
        let copy_url :=
          if AK.is_empty value
          then URL.set_port None copy_url
          else fst (basic_parse value copy_url URL.Port) in
        (TRY navigate copy_url default_history_handling ;; ret tt) w
  end.

(** [Location::pathname]. *)
Definition pathname (w : World Origin) : Result string :=
  if document_is_not_same_origin_domain w
  then Thrown (SecurityError not_same_origin_domain_message)
  else Returned (serialize_path (url w)).

(** [Location::set_pathname]. *)
Definition set_pathname (value : string) : M unit := fun w =>
  match relevant_document w with
  | None => ret tt w
  | Some document =>
    if negb (same_origin_domain_with_entry document w)
    then throw (SecurityError not_same_origin_domain_message) w
    else
      let copy_url := url w in
      if URL.has_an_opaque_path copy_url
      then ret tt w
      else
        let copy_url := URL.set_paths [] copy_url in
        let copy_url := fst (basic_parse value copy_url URL.PathStart) in
        (TRY navigate copy_url default_history_handling ;; ret tt) w
  end.

(** [Location::search]. *)
Definition search (w : World Origin) : Result string :=
  if document_is_not_same_origin_domain w
  then Thrown (SecurityError not_same_origin_domain_message)
  else
    let url := url w in
    match URL.query url with
    | None => Returned EmptyString
    | Some query =>
      if AK.is_empty query then Returned EmptyString else Returned ("?" ++ query)
    end.

(** [Location::set_search]. *)
Definition set_search (value : string) : M unit := fun w =>
  match relevant_document w with
  | None => ret tt w
  | Some document =>
    if negb (same_origin_domain_with_entry document w)
    then throw (SecurityError not_same_origin_domain_message) w
    else
      let copy_url := url w in
      let copy_url :=
        if AK.is_empty value
        then URL.set_query None copy_url
        else
          let input :=
            AK.substring_view (AK.size_of_bool (AK.starts_with value "?"%char)) value in
          let copy_url := URL.set_query (Some EmptyString) copy_url in
          fst (basic_parse input copy_url URL.Query) in
      (TRY navigate copy_url default_history_handling ;; ret tt) w
  end.

(** [Location::hash]. *)
Definition hash (w : World Origin) : Result string :=
  if document_is_not_same_origin_domain w
  then Thrown (SecurityError not_same_origin_domain_message)
  else
    let url := url w in
    match URL.fragment url with
    | None => Returned EmptyString
    | Some fragment =>
      if AK.is_empty fragment then Returned EmptyString else Returned ("#" ++ fragment)
    end.

(** Modelled from the spec: [Optional<String> == String] of AK, the
    "textually identical" test of the fragment: a value is there and equals
    the string. *)
Definition optional_equals (o : option string) (s : string) : bool :=
  match o with
  | Some s' => String.eqb s' s
  | None => false
  end.

(** [Location::set_hash]. *)
Definition set_hash (value : string) : M unit := fun w =>
  match relevant_document w with
  | None => ret tt w
  | Some document =>
    if negb (same_origin_domain_with_entry document w)
    then throw (SecurityError not_same_origin_domain_message) w
    else
      let copy_url := url w in
      let this_url_fragment :=
        match URL.fragment copy_url with
        | Some fragment => fragment
        | None => EmptyString
        end in
      let input :=
        AK.substring_view (AK.size_of_bool (AK.starts_with value "#"%char)) value in
      let copy_url := URL.set_fragment (Some EmptyString) copy_url in
      let copy_url := fst (basic_parse input copy_url URL.Fragment) in
      if optional_equals (URL.fragment copy_url) this_url_fragment
      then ret tt w
      else (TRY navigate copy_url default_history_handling ;; ret tt) w
  end.

(** [Location::reload]: a [void] method, it has no exception to return. *)
Definition reload (w : World Origin) : World Origin :=
  match relevant_document w with
  | None => w
  | Some document => Navigable_reload (DOM.navigable document) w
  end.

(** [Location::replace]. *)
Definition replace (url : string) : M unit := fun w =>
  match relevant_document w with
  | None => ret tt w
  | Some _ =>
    match parse_url (entry_settings_object w) url with
    | None => throw (SyntaxError ("Invalid URL '" ++ url ++ "'")) w
    | Some replace_url => (TRY navigate replace_url Replace ;; ret tt) w
    end
  end.

(** [Location::assign]. *)
Definition assign (url : string) : M unit := fun w =>
  match relevant_document w with
  | None => ret tt w
  | Some document =>
    if negb (same_origin_domain_with_entry document w)
    then throw (SecurityError not_same_origin_domain_message) w
    else
      match parse_url (entry_settings_object w) url with
      | None => throw (SyntaxError ("Invalid URL '" ++ url ++ "'")) w
      | Some assign_url => (TRY navigate assign_url default_history_handling ;; ret tt) w
      end
  end.

(** The nine getters of the interface, and the getter each name runs. *)
Inductive Accessor : Type :=
| Href | OriginOf | Protocol | Host | Hostname | Port | Pathname | Search | Hash.

Definition read (a : Accessor) : World Origin -> Result string :=
  match a with
  | Href => href
  | OriginOf => origin
  | Protocol => protocol
  | Host => host
  | Hostname => hostname
  | Port => port
  | Pathname => pathname
  | Search => search
  | Hash => hash
  end.

(** The value a getter is documented to return for a URL (the steps after
    the same origin-domain step, in the comments of each getter). *)
Definition component (a : Accessor) (u : URL.t) : string :=
  match a with
  | Href => serialize u
  | OriginOf => origin_serialize (url_origin u)
  | Protocol => URL.scheme u ++ ":"
  | Host =>
    match URL.host u, URL.port u with
    | None, _ => EmptyString
    | Some _, None => serialized_host u
    | Some _, Some p => serialized_host u ++ ":" ++ AK.number p
    end
  | Hostname =>
    match URL.host u with
    | None => EmptyString
    | Some _ => serialized_host u
    end
  | Port =>
    match URL.port u with
    | None => EmptyString
    | Some p => AK.number p
    end
  | Pathname => serialize_path u
  | Search =>
    match URL.query u with
    | None | Some EmptyString => EmptyString
    | Some q => "?" ++ q
    end
  | Hash =>
    match URL.fragment u with
    | None | Some EmptyString => EmptyString
    | Some f => "#" ++ f
    end
  end.

(** The setters of the interface, and the setter each name runs. *)
Inductive Mutator : Type :=
| SetHref | SetProtocol | SetHost | SetHostname | SetPort | SetPathname
| SetSearch | SetHash.

Definition write (m : Mutator) : string -> M unit :=
  match m with
  | SetHref => set_href
  | SetProtocol => set_protocol
  | SetHost => set_host
  | SetHostname => set_hostname
  | SetPort => set_port
  | SetPathname => set_pathname
  | SetSearch => set_search
  | SetHash => set_hash
  end.

(** The world with another entry settings object: another caller. *)
Definition with_entry_settings_object (s : EnvironmentSettingsObject Origin)
  (w : World Origin) : World Origin :=
  mkWorld (relevant_global_object w) (incumbent_global_object w) s (dispatched w).

(** The mode [navigate] passes to the navigable for a requested mode (its
    step 3), and the parameters of the request it makes (its step 4). *)
Definition passed_history_handling (document : DOM.Document Origin) (w : World Origin)
  (requested : NavigationHistoryBehavior) : NavigationHistoryBehavior :=
  if negb (DOM.is_completely_loaded document)
     && negb (has_transient_activation (incumbent_global_object w))
  then Replace
  else requested.

Definition navigate_params (document : DOM.Document Origin) (w : World Origin)
  (url : URL.t) (requested : NavigationHistoryBehavior) : NavigateParams Origin :=
  mkNavigateParams url (associated_document (incumbent_global_object w)) true
                   (passed_history_handling document w requested).

(** A value with a single leading [c] removed, if any:
    [value.substring_view(value.starts_with(c))]. *)
Definition without_leading (c : ascii) (value : string) : string :=
  AK.substring_view (AK.size_of_bool (AK.starts_with value c)) value.

(** [copy_url.scheme() == "http"sv || copy_url.scheme() == "https"sv] *)
Definition is_http_or_https (u : URL.t) : bool :=
  String.eqb (URL.scheme u) "http" || String.eqb (URL.scheme u) "https".


(** The methods of the interface that can reach a navigable, and the method
    each one runs; [reload], which returns nothing, returns success here. *)
Inductive Call : Type :=
| CallSetter (m : Mutator) (value : string)
| CallReplace (url : string)
| CallAssign (url : string)
| CallReload.

Definition run (c : Call) : M unit :=
  match c with
  | CallSetter m value => write m value
  | CallReplace url => replace url
  | CallAssign url => assign url
  | CallReload => fun w => (Returned tt, reload w)
  end.

(** A request as a Location makes it in world [w]: a navigation goes to the
    navigable of the relevant global object, with exceptions enabled, the
    incumbent global object's document as source, and the mode "replace" or
    the default; a reload goes to the navigable of the relevant document. *)
Definition made_by_location (w : World Origin) (r : Request Origin) : Prop :=
  match r with
  | NavigateRequest target params =>
    target = HTML.navigable (relevant_global_object w)
    /\ exceptions_enabled params = true
    /\ source_document params = associated_document (incumbent_global_object w)
    /\ (history_handling params = Replace
        \/ history_handling params = default_history_handling)
  | ReloadRequest target =>
    exists document, relevant_document w = Some document
                     /\ target = DOM.navigable document
  end.

(** A script that makes one call after another, going on whatever each
    call returned or threw: the world it leaves. *)
Fixpoint run_all (calls : list Call) (w : World Origin) : World Origin :=
  match calls with
  | [] => w
  | c :: rest => run_all rest (snd (run c w))
  end.

End Methods.

Section ObjectOperations.

Context {Object VM : Type} {libjs : LibJS Object VM}.

(** The object side of a Location: the base [JS::Object] and the
    [m_default_properties] member. *)
Record t : Type := mk {
  object : Object;
  m_default_properties : list JS.Value
}.

(** An operation on the Location object: its result and the object after. *)
Definition J (A : Type) : Type := t -> Result A * t.

(** [MUST(c)]: an exception aborts the process. *)
Definition MUST {A} (r : Result A) : Result A :=
  match r with
  | Returned value => Returned value
  | Thrown _ => Crashed
  | Crashed => Crashed
  end.

(** [Location::internal_define_own_property]. *)
Definition internal_define_own_property (vm : VM) (property_key : JS.PropertyKey)
  (descriptor : JS.PropertyDescriptor) : J bool := fun this =>
  if is_platform_object_same_origin vm (object this)
  then
    let (result, o) :=
      Object_internal_define_own_property (object this) property_key descriptor in
    (result, mk o (m_default_properties this))
  else
    (Thrown (SecurityError ("Can't define property '" ++ JS.to_string property_key
                            ++ "' on cross-origin object")), this).

(** [Location::initialize]. *)
Definition initialize (vm : VM) : J unit := fun this =>
  let this :=
    mk (define_unforgeable_attributes
          (Base_initialize (set_prototype_for_interface (object this))))
       (m_default_properties this) in
  let value_of_function := object_prototype_value_of vm in
  let value_of_property_descriptor :=
    JS.mkDescriptor (Some value_of_function) None None
                    (Some false) (Some false) (Some false) in
  match internal_define_own_property vm (JS.StringKey "valueOf")
          value_of_property_descriptor this with
  | (Returned _, this) =>
    let to_primitive_property_descriptor :=
      JS.mkDescriptor (Some JS.Undefined) None None
                      (Some false) (Some false) (Some false) in
    match internal_define_own_property vm (well_known_symbol_to_primitive vm)
            to_primitive_property_descriptor this with
    | (Returned _, this) =>
      match MUST (Object_internal_own_property_keys (object this)) with
      | Returned keys =>
        (Returned tt, mk (object this) (m_default_properties this ++ keys))
      | Thrown exception => (Thrown exception, this)
      | Crashed => (Crashed, this)
      end
    | (_, this) => (Crashed, this)
    end
  | (_, this) => (Crashed, this)
  end.

(** The value searched for in [m_default_properties]: the symbol itself, or
    a string made from the key. *)
Definition property_key_value (property_key : JS.PropertyKey) : JS.Value :=
  match property_key with
  | JS.SymbolKey symbol => JS.SymbolValue symbol
  | _ => JS.StringValue (JS.to_string property_key)
  end.

(** [Location::internal_get_own_property].  [descriptor->configurable = true]
    on an empty [Optional] is a failed [VERIFY]. *)
Definition internal_get_own_property (vm : VM) (property_key : JS.PropertyKey) (this : t)
  : Result (option JS.PropertyDescriptor) :=
  if is_platform_object_same_origin vm (object this)
  then
    match MUST (Object_internal_get_own_property (object this) property_key) with
    | Returned descriptor =>
      if AK.contains_slow JS.Value_eqb (m_default_properties this)
                          (property_key_value property_key)
      then
        match descriptor with
        | Some d => Returned (Some (JS.set_configurable true d))
        | None => Crashed
        end
      else Returned descriptor
    | Thrown exception => Thrown exception
    | Crashed => Crashed
    end
  else
    match cross_origin_get_own_property_helper vm (object this) property_key with
    | Some property => Returned (Some property)
    | None => cross_origin_property_fallback vm property_key
    end.

(** [Location::internal_set]. *)
Definition internal_set (vm : VM) (property_key : JS.PropertyKey)
  (value receiver : JS.Value) : J bool := fun this =>
  let (result, o) :=
    if is_platform_object_same_origin vm (object this)
    then Object_internal_set (object this) property_key value receiver
    else cross_origin_set vm (object this) property_key value receiver in
  (result, mk o (m_default_properties this)).

(** [Location::internal_delete]. *)
Definition internal_delete (vm : VM) (property_key : JS.PropertyKey) : J bool := fun this =>
  if is_platform_object_same_origin vm (object this)
  then
    let (result, o) := Object_internal_delete (object this) property_key in
    (result, mk o (m_default_properties this))
  else
    (Thrown (SecurityError ("Can't delete property '" ++ JS.to_string property_key
                            ++ "' on cross-origin object")), this).

(** [Location::internal_is_extensible]. *)
Definition internal_is_extensible (this : t) : Result bool := Returned true.

(** [Location::internal_prevent_extensions]. *)
Definition internal_prevent_extensions : J bool := fun this => (Returned false, this).

End ObjectOperations.

Arguments t Object : clear implicits.

Section MoreObjectOperations.

Context {Object VM : Type} {libjs : LibJS Object VM} {libjsobject : LibJSObject Object VM}.

(** [Location::internal_get_prototype_of]. *)
Definition internal_get_prototype_of (vm : VM) (this : t Object) : Result (option N) :=
  if is_platform_object_same_origin vm (object this)
  then MUST (Object_internal_get_prototype_of (object this))
  else Returned None.

(** [Location::internal_set_prototype_of]. *)
Definition internal_set_prototype_of (prototype : option N) (this : t Object)
  : Result bool :=
  MUST (Object_set_immutable_prototype (object this) prototype).

(** [Location::internal_get]. *)
Definition internal_get (vm : VM) (property_key : JS.PropertyKey) (receiver : JS.Value)
  (this : t Object) : Result JS.Value :=
  if is_platform_object_same_origin vm (object this)
  then Object_internal_get (object this) property_key receiver
  else cross_origin_get vm (object this) property_key receiver.

(** [Location::internal_own_property_keys]. *)
Definition internal_own_property_keys (vm : VM) (this : t Object)
  : Result (list JS.Value) :=
  if is_platform_object_same_origin vm (object this)
  then Object_internal_own_property_keys (object this)
  else Returned (cross_origin_own_property_keys (object this)).

End MoreObjectOperations.

End Location.

(** ** A small instance of the interfaces

    Concrete libraries and worlds on which the model runs.  The parser here
    stores the text of a component as it is given (no percent-encoding); a
    scheme is a run of ASCII letters before the colon; a port is a decimal
    number below 65536.  An origin is its serialization. *)
Module Demo.

Definition Origin : Type := string.

Definition is_alpha (c : ascii) : bool :=
  let n := nat_of_ascii c in
  Nat.leb 65 n && Nat.leb n 90 || Nat.leb 97 n && Nat.leb n 122.

Definition is_digit (c : ascii) : bool :=
  let n := nat_of_ascii c in
  Nat.leb 48 n && Nat.leb n 57.

Fixpoint all_chars (p : ascii -> bool) (s : string) : bool :=
  match s with
  | EmptyString => true
  | String c rest => p c && all_chars p rest
  end.

(** The text before the first colon, when there is a colon. *)
Fixpoint before_colon (s : string) : option string :=
  match s with
  | EmptyString => None
  | String c rest =>
    if Ascii.eqb c ":"%char then Some EmptyString
    else option_map (String c) (before_colon rest)
  end.

Fixpoint decimal_value (acc : N) (s : string) : N :=
  match s with
  | EmptyString => acc
  | String c rest => decimal_value (acc * 10 + N.of_nat (nat_of_ascii c - 48)) rest
  end.

Definition set_scheme (sch : string) (u : URL.t) : URL.t :=
  URL.mk sch (URL.username u) (URL.password u) (URL.host u) (URL.port u)
         (URL.paths u) (URL.has_an_opaque_path u) (URL.query u) (URL.fragment u).

Definition set_host (h : option URL.HostValue) (u : URL.t) : URL.t :=
  URL.mk (URL.scheme u) (URL.username u) (URL.password u) h (URL.port u)
         (URL.paths u) (URL.has_an_opaque_path u) (URL.query u) (URL.fragment u).

Definition parse (input : string) (u : URL.t) (state : URL.State) : URL.t * bool :=
  match state with
  | URL.SchemeStart =>
    match before_colon input with
    | Some sch =>
      if negb (AK.is_empty sch) && all_chars is_alpha sch
      then (set_scheme sch u, true)
      else (u, false)
    | None => (u, false)
    end
  | URL.Host | URL.Hostname =>
    if AK.is_empty input then (u, false)
    else (set_host (Some (URL.Domain input)) u, true)
  | URL.Port =>
    if all_chars is_digit input && N.ltb (decimal_value 0 input) 65536
    then (URL.set_port (Some (decimal_value 0 input)) u, true)
    else (u, false)
  | URL.PathStart => (URL.set_paths [input] u, true)
  | URL.Query =>
    (URL.set_query (Some (match URL.query u with Some q => q | None => EmptyString end
                          ++ input)) u, true)
  | URL.Fragment =>
    (URL.set_fragment (Some (match URL.fragment u with Some f => f | None => EmptyString end
                             ++ input)) u, true)
  | _ => (u, false)
  end.

Definition host_text (u : URL.t) : string :=
  match URL.host u with
  | Some (URL.Domain name) => name
  | Some (URL.OpaqueHost text) => text
  | _ => EmptyString
  end.

Definition path_text (u : URL.t) : string :=
  if URL.has_an_opaque_path u then String.concat "/" (URL.paths u)
  else "/" ++ String.concat "/" (URL.paths u).

Definition origin_text (u : URL.t) : string :=
  URL.scheme u ++ "://" ++ host_text u
  ++ match URL.port u with Some p => ":" ++ AK.number p | None => EmptyString end.

Definition serialize_text (u : URL.t) : string :=
  match URL.host u with
  | Some _ => origin_text u
  | None => URL.scheme u ++ ":"
  end
  ++ path_text u
  ++ match URL.query u with Some q => "?" ++ q | None => EmptyString end
  ++ match URL.fragment u with Some f => "#" ++ f | None => EmptyString end.

#[global] Instance liburl : LibURL Origin := {
  basic_parse := parse;
  serialize := serialize_text;
  serialized_host := host_text;
  serialize_path := path_text;
  url_origin := origin_text;
  origin_serialize := fun o => o;
  is_same_origin_domain := String.eqb
}.

(** A full parse that knows the form [https://name] only. *)
Definition parse_https (input : string) : option URL.t :=
  if String.prefix "https://" input && negb (AK.is_empty (AK.substring_view 8 input))
  then Some (URL.mk "https" EmptyString EmptyString
                    (Some (URL.Domain (AK.substring_view 8 input))) None
                    [EmptyString] false None None)
  else None.

#[global] Instance platform : Platform Origin := {
  parse_url := fun _ input => parse_https input;
  encoding_parse_url := fun _ input => parse_https input;
  navigate_outcome := fun _ _ _ => Returned tt;
  default_history_handling := Push
}.

(** A platform whose every URL parse fails. *)
Definition failing_platform : Platform Origin := {|
  parse_url := fun _ _ => None;
  encoding_parse_url := fun _ _ => None;
  navigate_outcome := fun _ _ _ => Returned tt;
  default_history_handling := Push
|}.

(** A parser that fails in every state and leaves the record alone. *)
Definition failing_liburl : LibURL Origin := {|
  basic_parse := fun _ u _ => (u, false);
  serialize := serialize_text;
  serialized_host := host_text;
  serialize_path := path_text;
  url_origin := origin_text;
  origin_serialize := fun o => o;
  is_same_origin_domain := String.eqb
|}.

(** A platform whose navigables refuse every navigation. *)
Definition refusing_platform : Platform Origin := {|
  parse_url := fun _ input => parse_https input;
  encoding_parse_url := fun _ input => parse_https input;
  navigate_outcome := fun _ _ _ =>
    Thrown (SecurityError "Source document's node navigable is not allowed to navigate");
  default_history_handling := Push
|}.

(** The parser of this instance, but reporting failure on every input. *)
Definition pessimistic_liburl : LibURL Origin := {|
  basic_parse := fun input u state => (fst (parse input u state), false);
  serialize := serialize_text;
  serialized_host := host_text;
  serialize_path := path_text;
  url_origin := origin_text;
  origin_serialize := fun o => o;
  is_same_origin_domain := String.eqb
|}.

Definition example_url : URL.t :=
  URL.mk "https" EmptyString EmptyString (Some (URL.Domain "a.test")) (Some 8080%N)
         ["p"] false (Some "q") (Some "f").

(** [https://a.test:8080/p?q##a]: the fragment itself begins with [#]. *)
Definition hash_fragment_url : URL.t := URL.set_fragment (Some "#a") example_url.

(** [file:///x]: a list path, and no username, password or port. *)
Definition file_url : URL.t :=
  URL.mk "file" EmptyString EmptyString (Some URL.EmptyHost) None ["x"] false None None.

(** [mailto:x]: an opaque path. *)
Definition mailto_url : URL.t :=
  URL.mk "mailto" EmptyString EmptyString None None ["x"] true None None.

Definition document_at (u : URL.t) (loaded : bool) : DOM.Document Origin :=
  DOM.mkDocument u (origin_text u) loaded 1%N.

Definition window_of (document : option (DOM.Document Origin)) (activation : bool)
  : Window Origin :=
  mkWindow (option_map (fun d => mkBrowsingContext (Some d)) document) 1%N
           (document_at example_url true) activation.

(** A world whose Location shows [document], entered from [caller]. *)
Definition world_of (document : option (DOM.Document Origin)) (activation : bool)
  (caller : Origin) : World Origin :=
  mkWorld (window_of document activation) (window_of document activation)
          (mkSettings caller example_url) [].

Definition same_origin_world : World Origin :=
  world_of (Some (document_at example_url true)) true "https://a.test:8080".

Definition cross_origin_world : World Origin :=
  world_of (Some (document_at example_url true)) true "https://evil.test".

Definition loading_world : World Origin :=
  world_of (Some (document_at example_url false)) false "https://a.test:8080".

Definition detached_world : World Origin := world_of None true "https://a.test:8080".

Definition hash_fragment_world : World Origin :=
  world_of (Some (document_at hash_fragment_url true)) true "https://a.test:8080".

Definition file_world : World Origin :=
  world_of (Some (document_at file_url true)) true "file://".

Definition mailto_world : World Origin :=
  world_of (Some (document_at mailto_url true)) true "mailto://".

(** [mailto:x] entered from another origin. *)
Definition mailto_other_origin_world : World Origin :=
  world_of (Some (document_at mailto_url true)) true "https://evil.test".

(** A browsing context without an active document, entered from another
    origin. *)
Definition empty_context_world : World Origin :=
  mkWorld (mkWindow (Some (mkBrowsingContext None)) 1%N (document_at example_url true) true)
          (window_of None true)
          (mkSettings "https://evil.test" example_url) [].

(** An ordinary object as the list of its own properties, oldest first; the
    script context is whether the caller is same origin with the object. *)
Definition Object : Type := list (JS.PropertyKey * JS.PropertyDescriptor).

Definition PropertyKey_eqb (a b : JS.PropertyKey) : bool :=
  match a, b with
  | JS.NumberKey n, JS.NumberKey n' => N.eqb n n'
  | JS.StringKey s, JS.StringKey s' => String.eqb s s'
  | JS.SymbolKey n, JS.SymbolKey n' => N.eqb n n'
  | _, _ => false
  end.

Fixpoint lookup (o : Object) (key : JS.PropertyKey) : option JS.PropertyDescriptor :=
  match o with
  | [] => None
  | (k, d) :: rest => if PropertyKey_eqb k key then Some d else lookup rest key
  end.

Definition remove (o : Object) (key : JS.PropertyKey) : Object :=
  filter (fun entry => negb (PropertyKey_eqb (fst entry) key)) o.

Definition is_configurable (d : JS.PropertyDescriptor) : bool :=
  match JS.configurable d with
  | Some false => false
  | _ => true
  end.

Definition define (o : Object) (key : JS.PropertyKey) (d : JS.PropertyDescriptor)
  : Result bool * Object :=
  match lookup o key with
  | None => (Returned true, (o ++ [(key, d)])%list)
  | Some old =>
    if is_configurable old
    then (Returned true, (remove o key ++ [(key, d)])%list)
    else (Returned false, o)
  end.

Definition delete (o : Object) (key : JS.PropertyKey) : Result bool * Object :=
  match lookup o key with
  | None => (Returned true, o)
  | Some old => if is_configurable old then (Returned true, remove o key) else (Returned false, o)
  end.

Definition key_value (key : JS.PropertyKey) : JS.Value :=
  match key with
  | JS.SymbolKey symbol => JS.SymbolValue symbol
  | _ => JS.StringValue (JS.to_string key)
  end.

(** The unforgeable attribute the bindings define on the instance. *)
Definition href_attribute : JS.PropertyKey * JS.PropertyDescriptor :=
  (JS.StringKey "href",
   JS.mkDescriptor None (Some (JS.ObjectValue 10)) (Some (JS.ObjectValue 11))
                   None (Some true) (Some false)).

#[global] Instance libjs : LibJS Object bool := {
  Object_internal_get_own_property := fun o key => Returned (lookup o key);
  Object_internal_define_own_property := define;
  Object_internal_delete := delete;
  Object_internal_set := fun o _ _ _ => (Returned false, o);
  Object_internal_own_property_keys := fun o => Returned (map (fun e => key_value (fst e)) o);
  set_prototype_for_interface := fun o => o;
  Base_initialize := fun o => o;
  define_unforgeable_attributes := fun o => (o ++ [href_attribute])%list;
  object_prototype_value_of := fun _ => JS.ObjectValue 1;
  well_known_symbol_to_primitive := fun _ => JS.SymbolKey 7;
  is_platform_object_same_origin := fun vm _ => vm;
  cross_origin_get_own_property_helper := fun _ _ _ => None;
  cross_origin_property_fallback := fun _ _ => Returned None;
  cross_origin_set := fun _ o _ _ _ => (Returned false, o)
}.

(** The Location object as [Location::initialize] leaves a new one. *)
Definition initialized_location : Location.t Object :=
  snd (Location.initialize true (Location.mk [] [])).

(** The cross-origin view of the object shows "href" and "replace" only. *)
#[global] Instance libjsobject : LibJSObject Object bool := {
  Object_internal_get_prototype_of := fun _ => Returned (Some 2%N);
  Object_set_immutable_prototype := fun _ prototype =>
    Returned (match prototype with Some 2%N => true | _ => false end);
  Object_internal_get := fun o key _ =>
    Returned (match lookup o key with
              | Some d => match JS.value d with Some v => v | None => JS.Undefined end
              | None => JS.Undefined
              end);
  cross_origin_get := fun _ _ _ _ => Returned JS.Undefined;
  cross_origin_own_property_keys := fun _ => [JS.StringValue "href"; JS.StringValue "replace"]
}.


End Demo.

(** * Properties *)

Unset Implicit Arguments.

Section LocationProperties.

Context {Origin : Type} {liburl : LibURL Origin} {platform : Platform Origin}.

Implicit Types (w : World Origin) (document : DOM.Document Origin).

(** ** How the methods run *)

(** After [TRY(c)], [return {}] gives what [c] gave. *)
Lemma try_then_return (c : Location.M unit) w :
  Location.bind c (fun _ => Location.ret tt) w = c w.
Proof.
  unfold Location.bind, Location.ret.
  destruct (c w) as [[[] | e | ] w']; reflexivity.
Qed.

(** With a document, [Location::navigate] hands exactly one request to the
    navigable of the relevant global object and returns what the navigable
    returns. *)
Lemma navigate_run w document url requested :
  Location.relevant_document w = Some document ->
  Location.navigate url requested w =
    (navigate_outcome w (HTML.navigable (relevant_global_object w))
                      (Location.navigate_params document w url requested),
     with_dispatched
       (dispatched w ++ [NavigateRequest (HTML.navigable (relevant_global_object w))
                                         (Location.navigate_params document w url requested)])
       w).
Proof.
  intros Hdoc. unfold Location.navigate. rewrite Hdoc.
  rewrite try_then_return. reflexivity.
Qed.

(** A navigation leaves a longer list of requests behind. *)
Lemma navigate_dispatches w document url requested :
  Location.relevant_document w = Some document ->
  dispatched (snd (Location.navigate url requested w)) <> dispatched w.
Proof.
  intros Hdoc. rewrite (navigate_run w document url requested Hdoc). simpl.
  intros Heq. apply (f_equal (@length _)) in Heq.
  rewrite length_app in Heq. simpl in Heq. lia.
Qed.

(** The getters' opening test, by the document and the origin verdict. *)
Lemma gate_of_document w document :
  Location.relevant_document w = Some document ->
  Location.document_is_not_same_origin_domain w
  = negb (Location.same_origin_domain_with_entry document w).
Proof.
  intros Hdoc. unfold Location.document_is_not_same_origin_domain.
  rewrite Hdoc. reflexivity.
Qed.

Lemma url_of_document w document :
  Location.relevant_document w = Some document -> Location.url w = DOM.url document.
Proof. intros Hdoc. unfold Location.url. rewrite Hdoc. reflexivity. Qed.

(** ** The getters *)

(** C1.  For each of the nine getters (href, origin, protocol, host,
    hostname, port, pathname, search, hash) on a Location whose relevant
    document is non-null: when the document's origin is not same
    origin-domain with the entry settings object's origin the getter throws
    the SecurityError, a fixed exception that carries nothing of the URL;
    when it is same origin-domain the getter throws nothing and returns the
    component of the document's URL. *)
Theorem getters_enforce_same_origin_domain :
  forall w document (a : Location.Accessor),
    Location.relevant_document w = Some document ->
    (Location.same_origin_domain_with_entry document w = false ->
     Location.read a w
     = Thrown (SecurityError Location.not_same_origin_domain_message))
    /\ (Location.same_origin_domain_with_entry document w = true ->
        Location.read a w = Returned (Location.component a (DOM.url document))
        /\ is_security_error (Location.read a w) = false).
Proof.
  intros w document a Hdoc.
  pose proof (gate_of_document w document Hdoc) as Hgate.
  pose proof (url_of_document w document Hdoc) as Hurl.
  split; intros Hsame; rewrite Hsame in Hgate; simpl in Hgate.
  - destruct a; simpl;
      unfold Location.href, Location.origin, Location.protocol, Location.host,
        Location.hostname, Location.port, Location.pathname, Location.search,
        Location.hash;
      rewrite Hgate; reflexivity.
  - assert (Hvalue : Location.read a w
                     = Returned (Location.component a (DOM.url document))).
    { destruct a; simpl;
        unfold Location.href, Location.origin, Location.protocol, Location.host,
          Location.hostname, Location.port, Location.pathname, Location.search,
          Location.hash;
        rewrite Hgate, Hurl; try reflexivity.
      - destruct (URL.host (DOM.url document)), (URL.port (DOM.url document));
          reflexivity.
      - destruct (URL.host (DOM.url document)); reflexivity.
      - destruct (URL.port (DOM.url document)); reflexivity.
      - destruct (URL.query (DOM.url document)) as [[ | c q] | ]; reflexivity.
      - destruct (URL.fragment (DOM.url document)) as [[ | c f] | ]; reflexivity. }
    split; [exact Hvalue | rewrite Hvalue; reflexivity].
Qed.

(** ** reload *)

(** C2.  [reload] makes no same origin-domain test and has no exception to
    throw: without a relevant document it changes nothing; with one it
    hands a reload request to the document's navigable, whatever the origins
    are, and entering from another settings object changes nothing of
    what it does. *)
Theorem reload_bypasses_security_gate :
  forall w,
    (Location.relevant_document w = None -> Location.reload w = w)
    /\ (forall document,
           Location.relevant_document w = Some document ->
           Location.reload w
           = with_dispatched (dispatched w ++ [ReloadRequest (DOM.navigable document)]) w)
    /\ (forall caller,
           Location.reload (Location.with_entry_settings_object caller w)
           = Location.with_entry_settings_object caller (Location.reload w)).
Proof.
  intros w. unfold Location.reload. repeat split.
  - intros Hdoc. rewrite Hdoc. reflexivity.
  - intros document Hdoc. rewrite Hdoc. reflexivity.
  - intros caller.
    replace (Location.relevant_document (Location.with_entry_settings_object caller w))
      with (Location.relevant_document w) by reflexivity.
    destruct (Location.relevant_document w); reflexivity.
Qed.

(** ** Location-object navigate *)

(** C6.  For every URL and every requested history-handling mode, on a
    Location with a relevant document, [navigate] hands the navigable one
    request whose mode is "replace" whenever the document is not completely
    loaded and the incumbent global object has no transient activation, and
    is the requested mode in every other case. *)
Theorem navigate_forces_replace_while_loading :
  forall w document (url : URL.t) (requested : NavigationHistoryBehavior),
    Location.relevant_document w = Some document ->
    exists passed : NavigationHistoryBehavior,
      let params :=
        mkNavigateParams url (associated_document (incumbent_global_object w)) true passed in
      Location.navigate url requested w
      = (navigate_outcome w (HTML.navigable (relevant_global_object w)) params,
         with_dispatched
           (dispatched w ++ [NavigateRequest (HTML.navigable (relevant_global_object w)) params])
           w)
      /\ (DOM.is_completely_loaded document = false ->
          has_transient_activation (incumbent_global_object w) = false ->
          passed = Replace)
      /\ (DOM.is_completely_loaded document = true
          \/ has_transient_activation (incumbent_global_object w) = true ->
          passed = requested).
Proof.
  intros w document url requested Hdoc.
  exists (Location.passed_history_handling document w requested).
  split; [exact (navigate_run w document url requested Hdoc) | ].
  unfold Location.passed_history_handling. split.
  - intros Hloaded Hactive. rewrite Hloaded, Hactive. reflexivity.
  - intros [Hloaded | Hactive].
    + rewrite Hloaded. reflexivity.
    + rewrite Hactive. rewrite andb_false_r. reflexivity.
Qed.

(** ** The href setter *)

(** C9.  For every input string, when the relevant document is null the
    href setter returns success and leaves the world as it was: nothing is
    dispatched, and since the input is never parsed an input whose parse
    fails raises no SyntaxError either. *)
Theorem set_href_without_document_returns :
  forall w (new_href : string),
    Location.relevant_document w = None ->
    Location.set_href new_href w = (Returned tt, w)
    /\ (encoding_parse_url (entry_settings_object w) new_href = None ->
        is_syntax_error (fst (Location.set_href new_href w)) = false).
Proof.
  intros w new_href Hdoc.
  assert (Hrun : Location.set_href new_href w = (Returned tt, w)).
  { unfold Location.set_href. rewrite Hdoc. reflexivity. }
  split; [exact Hrun | intros _; rewrite Hrun; reflexivity].
Qed.

(** ** replace and assign *)

(** C3.  [replace] and [assign] both return success and change nothing when
    the relevant document is null.  With a document, [replace] makes no
    origin test: it throws the SyntaxError when the parse of [url] relative
    to the entry settings object fails, and otherwise runs Location-object
    navigate with "replace", so the navigable receives that mode.  [assign]
    first throws the SecurityError when the document is not same
    origin-domain with the entry settings object; past that test it throws
    the SyntaxError when the parse fails and otherwise runs Location-object
    navigate with the default mode; that default being "push", as declared,
    [assign] runs Location-object navigate with "push", and the navigable
    receives "push" from a document that is completely loaded or a caller
    with transient activation. *)
Theorem replace_and_assign_outcomes :
  forall w (url : string),
    (Location.relevant_document w = None ->
     Location.replace url w = (Returned tt, w)
     /\ Location.assign url w = (Returned tt, w))
    /\ (forall document,
           Location.relevant_document w = Some document ->
           (parse_url (entry_settings_object w) url = None ->
            Location.replace url w
            = (Thrown (SyntaxError ("Invalid URL '" ++ url ++ "'")), w))
           /\ (forall parsed,
                  parse_url (entry_settings_object w) url = Some parsed ->
                  Location.replace url w = Location.navigate parsed Replace w
                  /\ dispatched (snd (Location.replace url w))
                     = (dispatched w
                        ++ [NavigateRequest
                              (HTML.navigable (relevant_global_object w))
                              (mkNavigateParams
                                 parsed (associated_document (incumbent_global_object w))
                                 true Replace)])%list)
           /\ (Location.same_origin_domain_with_entry document w = false ->
               Location.assign url w
               = (Thrown (SecurityError Location.not_same_origin_domain_message), w))
           /\ (Location.same_origin_domain_with_entry document w = true ->
               parse_url (entry_settings_object w) url = None ->
               Location.assign url w
               = (Thrown (SyntaxError ("Invalid URL '" ++ url ++ "'")), w))
           /\ (Location.same_origin_domain_with_entry document w = true ->
               forall parsed,
                 parse_url (entry_settings_object w) url = Some parsed ->
                 Location.assign url w
                 = Location.navigate parsed default_history_handling w)
           /\ (default_history_handling = declared_default_history_handling ->
               Location.same_origin_domain_with_entry document w = true ->
               forall parsed,
                 parse_url (entry_settings_object w) url = Some parsed ->
                 Location.assign url w = Location.navigate parsed Push w
                 /\ (DOM.is_completely_loaded document = true
                     \/ has_transient_activation (incumbent_global_object w) = true ->
                     dispatched (snd (Location.assign url w))
                     = (dispatched w
                        ++ [NavigateRequest
                              (HTML.navigable (relevant_global_object w))
                              (mkNavigateParams
                                 parsed (associated_document (incumbent_global_object w))
                                 true Push)])%list))).
Proof.
  intros w url. split.
  - intros Hdoc. unfold Location.replace, Location.assign. rewrite Hdoc.
    split; reflexivity.
  - intros document Hdoc. unfold Location.replace, Location.assign. rewrite Hdoc.
    split; [ | split; [ | split; [ | split; [ | split]]]].
    + intros Hparse. rewrite Hparse. reflexivity.
    + intros parsed Hparse. rewrite Hparse, try_then_return.
      split; [reflexivity | ].
      rewrite (navigate_run w document parsed Replace Hdoc). simpl.
      unfold Location.navigate_params, Location.passed_history_handling.
      destruct (negb (DOM.is_completely_loaded document)
                && negb (has_transient_activation (incumbent_global_object w)));
        reflexivity.
    + intros Hsame. rewrite Hsame. reflexivity.
    + intros Hsame Hparse. rewrite Hsame, Hparse. reflexivity.
    + intros Hsame parsed Hparse. rewrite Hsame, Hparse. apply try_then_return.
    + intros Hdefault Hsame parsed Hparse.
      rewrite Hsame, Hparse, try_then_return, Hdefault.
      unfold declared_default_history_handling.
      split; [reflexivity | ].
      intros Hready.
      rewrite (navigate_run w document parsed Push Hdoc). simpl.
      unfold Location.navigate_params, Location.passed_history_handling.
      destruct Hready as [Hloaded | Hactive].
      * rewrite Hloaded. reflexivity.
      * rewrite Hactive, andb_false_r. reflexivity.
Qed.

(** ** The protocol setter *)

(** C4.  Past the null-document and same origin-domain steps, the protocol
    setter throws its SyntaxError, dispatching nothing, exactly when the
    parse of the value followed by ":" in scheme start state, onto a copy of
    the URL, fails; when the parse succeeds and the scheme of the copy is
    neither "http" nor "https" it returns success and dispatches nothing;
    only when that scheme is "http" or "https" does it navigate, to the copy
    as the parser left it. *)
Theorem set_protocol_outcomes :
  forall w document (value : string) (copy_url : URL.t) (parsed : bool),
    Location.relevant_document w = Some document ->
    Location.same_origin_domain_with_entry document w = true ->
    basic_parse (value ++ ":") (DOM.url document) URL.SchemeStart = (copy_url, parsed) ->
    (parsed = false ->
     Location.set_protocol value w
     = (Thrown (SyntaxError ("Failed to set protocol. '" ++ value
                             ++ "' is an invalid protocol")), w))
    /\ (parsed = true ->
        URL.scheme copy_url <> "http" -> URL.scheme copy_url <> "https" ->
        Location.set_protocol value w = (Returned tt, w))
    /\ (parsed = true ->
        URL.scheme copy_url = "http" \/ URL.scheme copy_url = "https" ->
        Location.set_protocol value w
        = Location.navigate copy_url default_history_handling w
        /\ dispatched (snd (Location.set_protocol value w))
           = (dispatched w
              ++ [NavigateRequest
                    (HTML.navigable (relevant_global_object w))
                    (Location.navigate_params document w copy_url
                                              default_history_handling)])%list)
    /\ (is_syntax_error (fst (Location.set_protocol value w)) = true
        /\ dispatched (snd (Location.set_protocol value w)) = dispatched w
        <-> parsed = false).
Proof.
  intros w document value copy_url parsed Hdoc Hsame Hparse.
  assert (Hfail : parsed = false ->
                  Location.set_protocol value w
                  = (Thrown (SyntaxError ("Failed to set protocol. '" ++ value
                                          ++ "' is an invalid protocol")), w)).
  { intros ->. unfold Location.set_protocol.
    rewrite Hdoc, Hsame, (url_of_document w document Hdoc), Hparse. reflexivity. }
  assert (Hdrop : parsed = true ->
                  Location.is_http_or_https copy_url = false ->
                  Location.set_protocol value w = (Returned tt, w)).
  { intros -> Hscheme. unfold Location.set_protocol.
    rewrite Hdoc, Hsame, (url_of_document w document Hdoc), Hparse. simpl.
    unfold Location.is_http_or_https in Hscheme. rewrite Hscheme. reflexivity. }
  assert (Hgo : parsed = true ->
                Location.is_http_or_https copy_url = true ->
                Location.set_protocol value w
                = Location.navigate copy_url default_history_handling w).
  { intros -> Hscheme. unfold Location.set_protocol.
    rewrite Hdoc, Hsame, (url_of_document w document Hdoc), Hparse. simpl.
    unfold Location.is_http_or_https in Hscheme. rewrite Hscheme. simpl.
    apply try_then_return. }
  split; [exact Hfail | split; [ | split; [ | split]]].
  - intros Hparsed Hhttp Hhttps. apply (Hdrop Hparsed).
    unfold Location.is_http_or_https.
    apply String.eqb_neq in Hhttp. apply String.eqb_neq in Hhttps.
    rewrite Hhttp, Hhttps. reflexivity.
  - intros Hparsed Hscheme.
    assert (Hhttp : Location.is_http_or_https copy_url = true).
    { unfold Location.is_http_or_https.
      destruct Hscheme as [Hs | Hs]; rewrite Hs; reflexivity. }
    split; [exact (Hgo Hparsed Hhttp) | ].
    rewrite (Hgo Hparsed Hhttp).
    rewrite (navigate_run w document copy_url default_history_handling Hdoc).
    reflexivity.
  - intros [Hsyntax Hnone]. destruct parsed; [exfalso | reflexivity].
    destruct (bool_dec (Location.is_http_or_https copy_url) true) as [Hscheme | Hscheme].
    + rewrite (Hgo eq_refl Hscheme) in Hnone.
      exact (navigate_dispatches w document _ _ Hdoc Hnone).
    + apply not_true_is_false in Hscheme.
      rewrite (Hdrop eq_refl Hscheme) in Hsyntax. discriminate.
  - intros Hparsed. rewrite (Hfail Hparsed). split; reflexivity.
Qed.

(** ** The hash setter *)

Lemma without_leading_prefixed (c : ascii) (s : string) :
  Location.without_leading c (String c s) = s.
Proof.
  unfold Location.without_leading, AK.starts_with.
  rewrite Ascii.eqb_refl. reflexivity.
Qed.

Lemma without_leading_other (c : ascii) (s : string) :
  AK.starts_with s c = false -> Location.without_leading c s = s.
Proof.
  intros Hstart. unfold Location.without_leading. rewrite Hstart. reflexivity.
Qed.

Lemma optional_equals_spec (o : option string) (s : string) :
  Location.optional_equals o s = true <-> o = Some s.
Proof.
  destruct o as [s' | ]; simpl.
  - rewrite String.eqb_eq. split; congruence.
  - split; discriminate.
Qed.

(** Past the two opening steps, the hash setter is decided by the fragment
    the parser leaves in the copy. *)
Lemma set_hash_run w document (value : string) :
  Location.relevant_document w = Some document ->
  Location.same_origin_domain_with_entry document w = true ->
  let prior :=
    match URL.fragment (DOM.url document) with
    | Some f => f
    | None => EmptyString
    end in
  let copy_url :=
    fst (basic_parse (Location.without_leading "#" value)
                     (URL.set_fragment (Some EmptyString) (DOM.url document))
                     URL.Fragment) in
  Location.set_hash value w
  = if Location.optional_equals (URL.fragment copy_url) prior
    then (Returned tt, w)
    else Location.navigate copy_url default_history_handling w.
Proof.
  intros Hdoc Hsame. unfold Location.set_hash.
  rewrite Hdoc, Hsame, (url_of_document w document Hdoc). simpl.
  unfold Location.without_leading.
  destruct (Location.optional_equals _ _); [reflexivity | apply try_then_return].
Qed.

(** C5, as the code has it.  For every input value, past the null-document
    and same origin-domain steps: the hash setter strips a single leading
    "#", reparses in fragment state into a copy of the URL whose fragment is
    reset, and dispatches nothing when the fragment of the copy equals the
    prior fragment (the empty string when absent); otherwise it navigates to
    the copy.  In particular, when reparsing the prior fragment reproduces
    it, no navigation follows from setting hash to what the hash getter
    returns, to "#" followed by the prior fragment, or to the prior fragment
    alone provided that fragment does not itself begin with "#" (the setter
    would strip that character). *)
Theorem set_hash_skips_unchanged_fragment :
  forall w document,
    Location.relevant_document w = Some document ->
    Location.same_origin_domain_with_entry document w = true ->
    let prior :=
      match URL.fragment (DOM.url document) with
      | Some f => f
      | None => EmptyString
      end in
    let reparsed (input : string) :=
      fst (basic_parse input (URL.set_fragment (Some EmptyString) (DOM.url document))
                       URL.Fragment) in
    (forall value,
        URL.fragment (reparsed (Location.without_leading "#" value)) = Some prior ->
        Location.set_hash value w = (Returned tt, w))
    /\ (forall value,
           URL.fragment (reparsed (Location.without_leading "#" value)) <> Some prior ->
           Location.set_hash value w
           = Location.navigate (reparsed (Location.without_leading "#" value))
                               default_history_handling w)
    /\ (URL.fragment (reparsed prior) = Some prior ->
        Location.set_hash ("#" ++ prior) w = (Returned tt, w)
        /\ (AK.starts_with prior "#" = false ->
            Location.set_hash prior w = (Returned tt, w))
        /\ (forall shown,
               Location.hash w = Returned shown ->
               Location.set_hash shown w = (Returned tt, w))).
Proof.
  intros w document Hdoc Hsame prior reparsed.
  assert (Hskip : forall value,
             URL.fragment (reparsed (Location.without_leading "#" value)) = Some prior ->
             Location.set_hash value w = (Returned tt, w)).
  { intros value Hfragment.
    rewrite (set_hash_run w document value Hdoc Hsame). cbv zeta.
    fold prior. fold (reparsed (Location.without_leading "#" value)).
    apply optional_equals_spec in Hfragment. rewrite Hfragment. reflexivity. }
  split; [exact Hskip | split].
  - intros value Hfragment.
    rewrite (set_hash_run w document value Hdoc Hsame). cbv zeta.
    fold prior. fold (reparsed (Location.without_leading "#" value)).
    destruct (Location.optional_equals _ prior) eqn:Hequal; [ | reflexivity].
    apply optional_equals_spec in Hequal. contradiction.
  - intros Hstable. split; [ | split].
    + apply Hskip. simpl. rewrite without_leading_prefixed. exact Hstable.
    + intros Hstart. apply Hskip.
      rewrite (without_leading_other "#" prior Hstart). exact Hstable.
    + intros shown Hshown. apply Hskip.
      unfold Location.hash in Hshown.
      rewrite (gate_of_document w document Hdoc), Hsame in Hshown. simpl in Hshown.
      rewrite (url_of_document w document Hdoc) in Hshown.
      subst prior.
      destruct (URL.fragment (DOM.url document)) as [[ | c f] | ];
        simpl in Hshown; injection Hshown as <-;
        try rewrite without_leading_prefixed; exact Hstable.
Qed.

(** ** Structural no-ops *)

(** C7, as the code has it.  Every setter returns success and leaves the
    world as it was (nothing dispatched, the document's URL untouched) when
    the relevant document is null.  With a document that passed the same
    origin-domain step, the host, hostname and pathname setters do so when
    the URL has an opaque path, and the port setter does so when the URL
    cannot have a username, password or port.  The host setter has no such
    port test: on a URL without an opaque path it reparses in host state and
    navigates, whether or not the URL can have a port. *)
Theorem setters_structural_no_op :
  forall w (value : string),
    (Location.relevant_document w = None ->
     forall m : Location.Mutator, Location.write m value w = (Returned tt, w))
    /\ (forall document,
           Location.relevant_document w = Some document ->
           Location.same_origin_domain_with_entry document w = true ->
           (URL.has_an_opaque_path (DOM.url document) = true ->
            Location.set_host value w = (Returned tt, w)
            /\ Location.set_hostname value w = (Returned tt, w)
            /\ Location.set_pathname value w = (Returned tt, w))
           /\ (URL.cannot_have_a_username_or_password_or_port (DOM.url document) = true ->
               Location.set_port value w = (Returned tt, w))
           /\ (URL.has_an_opaque_path (DOM.url document) = false ->
               Location.set_host value w
               = Location.navigate (fst (basic_parse value (DOM.url document) URL.Host))
                                   default_history_handling w)).
Proof.
  intros w value. split.
  - intros Hdoc m.
    destruct m; simpl;
      unfold Location.set_href, Location.set_protocol, Location.set_host,
        Location.set_hostname, Location.set_port, Location.set_pathname,
        Location.set_search, Location.set_hash;
      rewrite Hdoc; reflexivity.
  - intros document Hdoc Hsame.
    pose proof (url_of_document w document Hdoc) as Hurl.
    split; [ | split].
    + intros Hopaque.
      unfold Location.set_host, Location.set_hostname, Location.set_pathname.
      rewrite Hdoc, Hsame, Hurl, Hopaque. simpl. repeat split.
    + intros Hport. unfold Location.set_port.
      rewrite Hdoc, Hsame, Hurl, Hport. reflexivity.
    + intros Hlist. unfold Location.set_host.
      rewrite Hdoc, Hsame, Hurl, Hlist. simpl. apply try_then_return.
Qed.

(** ** The empty string in search and port *)

(** C10.  With a document that passed the same origin-domain step, the
    search setter given the empty string navigates to the copy of the URL
    whose query is absent (null, not empty), and the port setter given the
    empty string, on a URL that can have a port, navigates to the copy whose
    port is absent: one request goes to the navigable in each case, and, the
    parser not being called, any other parser gives the same run. *)
Theorem empty_value_clears_query_and_port :
  forall w document,
    Location.relevant_document w = Some document ->
    Location.same_origin_domain_with_entry document w = true ->
    (Location.set_search EmptyString w
     = Location.navigate (URL.set_query None (DOM.url document))
                         default_history_handling w
     /\ URL.query (URL.set_query None (DOM.url document)) = None
     /\ dispatched (snd (Location.set_search EmptyString w))
        = (dispatched w
           ++ [NavigateRequest
                 (HTML.navigable (relevant_global_object w))
                 (Location.navigate_params document w
                    (URL.set_query None (DOM.url document))
                    default_history_handling)])%list)
    /\ (URL.cannot_have_a_username_or_password_or_port (DOM.url document) = false ->
        Location.set_port EmptyString w
        = Location.navigate (URL.set_port None (DOM.url document))
                            default_history_handling w
        /\ URL.port (URL.set_port None (DOM.url document)) = None
        /\ dispatched (snd (Location.set_port EmptyString w))
           = (dispatched w
              ++ [NavigateRequest
                    (HTML.navigable (relevant_global_object w))
                    (Location.navigate_params document w
                       (URL.set_port None (DOM.url document))
                       default_history_handling)])%list)
    /\ (forall other : LibURL Origin,
           @Location.same_origin_domain_with_entry Origin other document w = true ->
           @Location.set_search Origin other platform EmptyString w
           = @Location.set_search Origin liburl platform EmptyString w
           /\ @Location.set_port Origin other platform EmptyString w
              = @Location.set_port Origin liburl platform EmptyString w).
Proof.
  intros w document Hdoc Hsame.
  pose proof (url_of_document w document Hdoc) as Hurl.
  assert (Hsearch : forall (lib : LibURL Origin),
             @Location.same_origin_domain_with_entry Origin lib document w = true ->
             @Location.set_search Origin lib platform EmptyString w
             = Location.navigate (URL.set_query None (DOM.url document))
                                 default_history_handling w).
  { intros lib Hlib. unfold Location.set_search.
    rewrite Hdoc, Hlib, Hurl. simpl. apply try_then_return. }
  assert (Hport : forall (lib : LibURL Origin),
             @Location.same_origin_domain_with_entry Origin lib document w = true ->
             @Location.set_port Origin lib platform EmptyString w
             = if URL.cannot_have_a_username_or_password_or_port (DOM.url document)
               then (Returned tt, w)
               else Location.navigate (URL.set_port None (DOM.url document))
                                      default_history_handling w).
  { intros lib Hlib. unfold Location.set_port.
    rewrite Hdoc, Hlib, Hurl. simpl.
    destruct (URL.cannot_have_a_username_or_password_or_port (DOM.url document));
      [reflexivity | apply try_then_return]. }
  split; [ | split].
  - split; [exact (Hsearch liburl Hsame) | split; [reflexivity | ]].
    rewrite (Hsearch liburl Hsame).
    rewrite (navigate_run w document _ default_history_handling Hdoc). reflexivity.
  - intros Hcan. rewrite (Hport liburl Hsame), Hcan.
    split; [reflexivity | split; [reflexivity | ]].
    rewrite (navigate_run w document _ default_history_handling Hdoc). reflexivity.
  - intros other Hother.
    rewrite (Hsearch other Hother), (Hsearch liburl Hsame).
    rewrite (Hport other Hother), (Hport liburl Hsame).
    split; reflexivity.
Qed.

End LocationProperties.

Section ObjectProperties.

Context {Object VM : Type} {libjs : LibJS Object VM}.

Implicit Types (this : Location.t Object) (vm : VM).

Lemma Value_eqb_eq (a b : JS.Value) : JS.Value_eqb a b = true <-> a = b.
Proof.
  destruct a, b; simpl; try (split; [discriminate | congruence]);
    try (split; reflexivity).
  - rewrite String.eqb_eq. split; congruence.
  - rewrite N.eqb_eq. split; congruence.
  - rewrite N.eqb_eq. split; congruence.
Qed.

(** The linear search finds exactly the members of the vector. *)
Lemma contains_slow_In (v : list JS.Value) (x : JS.Value) :
  AK.contains_slow JS.Value_eqb v x = true <-> In x v.
Proof.
  induction v as [ | y rest IH]; simpl.
  - split; [discriminate | contradiction].
  - destruct (JS.Value_eqb y x) eqn:Hyx.
    + apply Value_eqb_eq in Hyx. split; [left; exact Hyx | reflexivity].
    + rewrite IH. split; [right; assumption | ].
      intros [Heq | Hin]; [ | exact Hin].
      apply Value_eqb_eq in Heq. congruence.
Qed.

Lemma contains_slow_not_In (v : list JS.Value) (x : JS.Value) :
  AK.contains_slow JS.Value_eqb v x = false <-> ~ In x v.
Proof.
  rewrite <- contains_slow_In.
  destruct (AK.contains_slow JS.Value_eqb v x); split; congruence.
Qed.

(** Defining a property never touches [m_default_properties]. *)
Lemma define_keeps_default_properties vm key descriptor this :
  Location.m_default_properties
    (snd (Location.internal_define_own_property vm key descriptor this))
  = Location.m_default_properties this.
Proof.
  unfold Location.internal_define_own_property.
  destruct (is_platform_object_same_origin vm (Location.object this)); [ | reflexivity].
  destruct (Object_internal_define_own_property _ key descriptor). reflexivity.
Qed.

(** What [initialize] stores: the own property keys of the object as the
    two definitions left it, after whatever the vector held. *)
Lemma initialize_captures_own_keys vm this0 this1 :
  Location.initialize vm this0 = (Returned tt, this1) ->
  exists keys,
    Object_internal_own_property_keys (Location.object this1) = Returned keys
    /\ Location.m_default_properties this1
       = (Location.m_default_properties this0 ++ keys)%list.
Proof.
  unfold Location.initialize.
  set (start := Location.mk _ _).
  pose proof (define_keeps_default_properties vm (JS.StringKey "valueOf")
                (JS.mkDescriptor (Some (object_prototype_value_of vm)) None None
                                 (Some false) (Some false) (Some false)) start) as Hfirst.
  destruct (Location.internal_define_own_property vm (JS.StringKey "valueOf") _ start)
    as [[defined | e | ] middle]; try discriminate.
  pose proof (define_keeps_default_properties vm (well_known_symbol_to_primitive vm)
                (JS.mkDescriptor (Some JS.Undefined) None None
                                 (Some false) (Some false) (Some false)) middle) as Hsecond.
  destruct (Location.internal_define_own_property vm (well_known_symbol_to_primitive vm)
              _ middle) as [[defined' | e | ] last]; try discriminate.
  destruct (Object_internal_own_property_keys (Location.object last))
    as [keys | e | ] eqn:Hkeys; simpl; try discriminate.
  intros Hrun. injection Hrun as <-. exists keys. simpl in *.
  split; [exact Hkeys | ]. rewrite Hsecond, Hfirst. reflexivity.
Qed.

(** A default key whose ordinary lookup finds nothing: the assignment to
    [descriptor->configurable] has no descriptor to write to. *)
Lemma get_own_property_of_missing_default_key vm this (P : JS.PropertyKey) :
  is_platform_object_same_origin vm (Location.object this) = true ->
  Object_internal_get_own_property (Location.object this) P = Returned None ->
  In (Location.property_key_value P) (Location.m_default_properties this) ->
  Location.internal_get_own_property vm P this = Crashed.
Proof.
  intros Hsame Hordinary Hdefault. apply contains_slow_In in Hdefault.
  unfold Location.internal_get_own_property.
  rewrite Hsame, Hordinary. simpl. rewrite Hdefault. reflexivity.
Qed.

(** ** [[GetOwnProperty]] *)

(** The value [[GetOwnProperty]] searches the default properties for is the
    one the key is listed as. *)
Lemma searched_value_is_listed_value (P : JS.PropertyKey) :
  Location.property_key_value P = JS.listed_as P.
Proof. destruct P; reflexivity. Qed.

(** C8.  For every property key P (a string, an index or a symbol), when
    the caller is same origin with the Location object and the ordinary
    lookup of P returns: a key that is not listed in the default properties
    gets the ordinary result as it is; a key that is listed there gets the
    ordinary descriptor with its configurable field set to true, whatever it
    was defined with, and every other field kept.  The default properties
    are the own property keys that [initialize] stored, and defining, setting
    or deleting a property leaves them as they are. *)
Theorem get_own_property_forces_configurable :
  forall vm this (P : JS.PropertyKey) (desc : option JS.PropertyDescriptor),
    is_platform_object_same_origin vm (Location.object this) = true ->
    Object_internal_get_own_property (Location.object this) P = Returned desc ->
    (~ In (JS.listed_as P) (Location.m_default_properties this) ->
     Location.internal_get_own_property vm P this = Returned desc)
    /\ (In (JS.listed_as P) (Location.m_default_properties this) ->
        forall d,
          desc = Some d ->
          Location.internal_get_own_property vm P this
          = Returned (Some (JS.set_configurable true d))
          /\ JS.configurable (JS.set_configurable true d) = Some true
          /\ JS.set_configurable true d
             = JS.mkDescriptor (JS.value d) (JS.get d) (JS.set d) (JS.writable d)
                               (JS.enumerable d) (Some true))
    /\ (forall this0,
           Location.initialize vm this0 = (Returned tt, this) ->
           exists keys,
             Object_internal_own_property_keys (Location.object this) = Returned keys
             /\ Location.m_default_properties this
                = (Location.m_default_properties this0 ++ keys)%list)
    /\ (forall key descriptor value receiver,
           Location.m_default_properties
             (snd (Location.internal_define_own_property vm key descriptor this))
           = Location.m_default_properties this
           /\ Location.m_default_properties
                (snd (Location.internal_set vm key value receiver this))
              = Location.m_default_properties this
           /\ Location.m_default_properties (snd (Location.internal_delete vm key this))
              = Location.m_default_properties this).
Proof.
  intros vm this P desc Hsame Hordinary.
  split; [ | split; [ | split]].
  - intros Houtside. rewrite <- searched_value_is_listed_value in Houtside.
    apply contains_slow_not_In in Houtside.
    unfold Location.internal_get_own_property.
    rewrite Hsame, Hordinary. simpl. rewrite Houtside. reflexivity.
  - intros Hdefault d ->. rewrite <- searched_value_is_listed_value in Hdefault.
    apply contains_slow_In in Hdefault.
    unfold Location.internal_get_own_property.
    rewrite Hsame, Hordinary. simpl. rewrite Hdefault. repeat split.
  - intros this0. apply initialize_captures_own_keys.
  - intros key descriptor value receiver. split; [ | split].
    + apply define_keeps_default_properties.
    + unfold Location.internal_set.
      destruct (is_platform_object_same_origin vm (Location.object this));
        [destruct (Object_internal_set _ key value receiver)
        | destruct (cross_origin_set vm _ key value receiver)]; reflexivity.
    + unfold Location.internal_delete.
      destruct (is_platform_object_same_origin vm (Location.object this));
        [destruct (Object_internal_delete _ key) | ]; reflexivity.
Qed.

End ObjectProperties.

(** * The theorems on concrete worlds *)

(** The getters on [https://a.test:8080/p?q#f]: refused to a caller from
    another origin, answered to a caller of the same origin. *)
Lemma getters_enforce_same_origin_domain_witness :
  Location.read Location.Href Demo.cross_origin_world
  = Thrown (SecurityError Location.not_same_origin_domain_message)
  /\ Location.read Location.OriginOf Demo.cross_origin_world
     = Thrown (SecurityError Location.not_same_origin_domain_message)
  /\ Location.read Location.Host Demo.same_origin_world = Returned "a.test:8080"
  /\ Location.read Location.Hash Demo.same_origin_world = Returned "#f".
Proof.
  split; [ | split; [ | split]].
  - apply (getters_enforce_same_origin_domain
             Demo.cross_origin_world (Demo.document_at Demo.example_url true)
             Location.Href eq_refl); reflexivity.
  - apply (getters_enforce_same_origin_domain
             Demo.cross_origin_world (Demo.document_at Demo.example_url true)
             Location.OriginOf eq_refl); reflexivity.
  - exact (proj1 (proj2 (getters_enforce_same_origin_domain
                           Demo.same_origin_world
                           (Demo.document_at Demo.example_url true)
                           Location.Host eq_refl) eq_refl)).
  - exact (proj1 (proj2 (getters_enforce_same_origin_domain
                           Demo.same_origin_world
                           (Demo.document_at Demo.example_url true)
                           Location.Hash eq_refl) eq_refl)).
Defined.

(** [reload] from another origin still reaches the navigable. *)
Lemma reload_bypasses_security_gate_witness :
  Location.reload Demo.detached_world = Demo.detached_world
  /\ dispatched (Location.reload Demo.cross_origin_world) = [ReloadRequest 1%N].
Proof.
  split.
  - apply (reload_bypasses_security_gate Demo.detached_world); reflexivity.
  - rewrite (proj1 (proj2 (reload_bypasses_security_gate Demo.cross_origin_world))
               (Demo.document_at Demo.example_url true) eq_refl).
    reflexivity.
Defined.

(** [replace] from another origin navigates with "replace"; [assign] from
    another origin is refused, and from the same origin, on a platform whose
    default is "push", navigates with "push". *)
Lemma replace_and_assign_outcomes_witness :
  Location.replace "https://b.test" Demo.detached_world = (Returned tt, Demo.detached_world)
  /\ Location.replace "b.test" Demo.cross_origin_world
     = (Thrown (SyntaxError "Invalid URL 'b.test'"), Demo.cross_origin_world)
  /\ map (fun request =>
            match request with
            | NavigateRequest _ params => Some (history_handling params)
            | ReloadRequest _ => None
            end)
         (dispatched (snd (Location.replace "https://b.test" Demo.cross_origin_world)))
     = [Some Replace]
  /\ Location.assign "https://b.test" Demo.cross_origin_world
     = (Thrown (SecurityError Location.not_same_origin_domain_message),
        Demo.cross_origin_world)
  /\ Location.assign "b.test" Demo.same_origin_world
     = (Thrown (SyntaxError "Invalid URL 'b.test'"), Demo.same_origin_world)
  /\ Location.assign "https://b.test" Demo.same_origin_world
     = Location.navigate
         (URL.mk "https" EmptyString EmptyString (Some (URL.Domain "b.test")) None
                 [EmptyString] false None None)
         Push Demo.same_origin_world
  /\ map (fun request =>
            match request with
            | NavigateRequest _ params => Some (history_handling params)
            | ReloadRequest _ => None
            end)
         (dispatched (snd (Location.assign "https://b.test" Demo.same_origin_world)))
     = [Some Push].
Proof.
  pose proof (replace_and_assign_outcomes Demo.cross_origin_world "b.test") as Hbad.
  pose proof (replace_and_assign_outcomes Demo.cross_origin_world "https://b.test") as Hcross.
  pose proof (replace_and_assign_outcomes Demo.same_origin_world "b.test") as Hbad'.
  pose proof (replace_and_assign_outcomes Demo.same_origin_world "https://b.test") as Hsame.
  split; [ | split; [ | split; [ | split; [ | split; [ | split]]]]].
  - apply (replace_and_assign_outcomes Demo.detached_world "https://b.test"); reflexivity.
  - apply (proj2 Hbad (Demo.document_at Demo.example_url true) eq_refl); reflexivity.
  - destruct (proj2 Hcross (Demo.document_at Demo.example_url true) eq_refl)
      as [_ [Hnavigate _]].
    destruct (Hnavigate _ eq_refl) as [_ Hrequests].
    rewrite Hrequests. reflexivity.
  - apply (proj2 Hcross (Demo.document_at Demo.example_url true) eq_refl); reflexivity.
  - apply (proj2 Hbad' (Demo.document_at Demo.example_url true) eq_refl); reflexivity.
  - destruct (proj2 Hsame (Demo.document_at Demo.example_url true) eq_refl)
      as [_ [_ [_ [_ [_ Hpush]]]]].
    exact (proj1 (Hpush eq_refl eq_refl _ eq_refl)).
  - destruct (proj2 Hsame (Demo.document_at Demo.example_url true) eq_refl)
      as [_ [_ [_ [_ [_ Hpush]]]]].
    rewrite (proj2 (Hpush eq_refl eq_refl _ eq_refl) (or_introl eq_refl)).
    reflexivity.
Defined.

(** The protocol setter on [https://a.test:8080/p?q#f]: "1x" is no scheme,
    "ftp" is dropped, "http" navigates. *)
Lemma set_protocol_outcomes_witness :
  Location.set_protocol "1x" Demo.same_origin_world
  = (Thrown (SyntaxError "Failed to set protocol. '1x' is an invalid protocol"),
     Demo.same_origin_world)
  /\ Location.set_protocol "ftp" Demo.same_origin_world
     = (Returned tt, Demo.same_origin_world)
  /\ Location.set_protocol "http" Demo.same_origin_world
     = Location.navigate (Demo.set_scheme "http" Demo.example_url) Push
                         Demo.same_origin_world.
Proof.
  split; [ | split].
  - exact (proj1 (set_protocol_outcomes
                    Demo.same_origin_world (Demo.document_at Demo.example_url true)
                    "1x" Demo.example_url false eq_refl eq_refl eq_refl) eq_refl).
  - refine (proj1 (proj2 (set_protocol_outcomes
                            Demo.same_origin_world
                            (Demo.document_at Demo.example_url true)
                            "ftp" (Demo.set_scheme "ftp" Demo.example_url) true
                            eq_refl eq_refl eq_refl)) eq_refl _ _);
      simpl; discriminate.
  - refine (proj1 (proj1 (proj2 (proj2 (set_protocol_outcomes
                                          Demo.same_origin_world
                                          (Demo.document_at Demo.example_url true)
                                          "http" (Demo.set_scheme "http" Demo.example_url)
                                          true eq_refl eq_refl eq_refl)))
                         eq_refl (or_introl eq_refl))).
Defined.

(** The hash setter on [https://a.test:8080/p?q#f]: "#f" and "f" change
    nothing of the fragment, so nothing is dispatched. *)
Lemma set_hash_skips_unchanged_fragment_witness :
  Location.set_hash "#f" Demo.same_origin_world = (Returned tt, Demo.same_origin_world)
  /\ Location.set_hash "f" Demo.same_origin_world = (Returned tt, Demo.same_origin_world).
Proof.
  pose proof (set_hash_skips_unchanged_fragment
                Demo.same_origin_world (Demo.document_at Demo.example_url true)
                eq_refl eq_refl) as Hhash.
  cbv zeta in Hhash. destruct Hhash as [_ [_ Hstable]].
  destruct (Hstable eq_refl) as [Hwith [Hwithout _]].
  split; [exact Hwith | exact (Hwithout eq_refl)].
Defined.

(** C5, refuted as stated.  On [https://a.test:8080/p?q##a] the fragment is
    "#a" and the hash getter returns "##a"; the parser reproduces that
    fragment when given it; yet setting hash to the fragment "#a", the
    current value without its leading "#", strips the "#" of the fragment
    itself, reparses "a" (which the parser stores as "a"), and navigates to
    the URL with fragment "a". *)
Lemma set_hash_own_fragment_navigates :
  Location.relevant_document Demo.hash_fragment_world
  = Some (Demo.document_at Demo.hash_fragment_url true)
  /\ Location.same_origin_domain_with_entry
       (Demo.document_at Demo.hash_fragment_url true) Demo.hash_fragment_world = true
  /\ URL.fragment Demo.hash_fragment_url = Some "#a"
  /\ Location.hash Demo.hash_fragment_world = Returned "##a"
  /\ URL.fragment
       (fst (basic_parse "#a" (URL.set_fragment (Some EmptyString) Demo.hash_fragment_url)
                         URL.Fragment))
     = Some "#a"
  /\ URL.fragment
       (fst (basic_parse "a" (URL.set_fragment (Some EmptyString) Demo.hash_fragment_url)
                         URL.Fragment))
     = Some "a"
  /\ Location.set_hash "#a" Demo.hash_fragment_world
     <> (Returned tt, Demo.hash_fragment_world)
  /\ dispatched (snd (Location.set_hash "#a" Demo.hash_fragment_world))
     = [NavigateRequest 1%N
          (mkNavigateParams (URL.set_fragment (Some "a") Demo.hash_fragment_url)
                            (Demo.document_at Demo.example_url true) true Push)].
Proof.
  split; [reflexivity | ]. split; [reflexivity | ]. split; [reflexivity | ].
  split; [reflexivity | ]. split; [reflexivity | ]. split; [reflexivity | ].
  split; [ | reflexivity].
  intros Hrun.
  apply (f_equal (fun run => length (dispatched (snd run)))) in Hrun.
  vm_compute in Hrun. discriminate.
Qed.

(** Navigation from a loading document without activation asks for "push"
    and "replace" is passed; from a loaded one "push" is passed. *)
Lemma navigate_forces_replace_while_loading_witness :
  map (fun request =>
         match request with
         | NavigateRequest _ params => Some (history_handling params)
         | ReloadRequest _ => None
         end)
      (dispatched (snd (Location.navigate Demo.file_url Push Demo.loading_world)))
  = [Some Replace]
  /\ map (fun request =>
            match request with
            | NavigateRequest _ params => Some (history_handling params)
            | ReloadRequest _ => None
            end)
         (dispatched (snd (Location.navigate Demo.file_url Push Demo.same_origin_world)))
     = [Some Push].
Proof.
  split.
  - destruct (navigate_forces_replace_while_loading
                Demo.loading_world (Demo.document_at Demo.example_url false)
                Demo.file_url Push eq_refl) as [passed [Hrun [Hforced _]]].
    cbv zeta in Hrun. rewrite Hrun, (Hforced eq_refl eq_refl). reflexivity.
  - destruct (navigate_forces_replace_while_loading
                Demo.same_origin_world (Demo.document_at Demo.example_url true)
                Demo.file_url Push eq_refl) as [passed [Hrun [_ Hkept]]].
    cbv zeta in Hrun. rewrite Hrun, (Hkept (or_introl eq_refl)). reflexivity.
Defined.

(** The setters without a document, the host setter on [mailto:x], the port
    setter on [file:///x]. *)
Lemma setters_structural_no_op_witness :
  Location.write Location.SetSearch "?x" Demo.detached_world
  = (Returned tt, Demo.detached_world)
  /\ Location.set_host "h" Demo.mailto_world = (Returned tt, Demo.mailto_world)
  /\ Location.set_port "81" Demo.file_world = (Returned tt, Demo.file_world).
Proof.
  split; [ | split].
  - exact (proj1 (setters_structural_no_op Demo.detached_world "?x") eq_refl
                 Location.SetSearch).
  - exact (proj1 (proj1 (proj2 (setters_structural_no_op Demo.mailto_world "h")
                               (Demo.document_at Demo.mailto_url true) eq_refl eq_refl)
                        eq_refl)).
  - exact (proj1 (proj2 (proj2 (setters_structural_no_op Demo.file_world "81")
                               (Demo.document_at Demo.file_url true) eq_refl eq_refl))
                 eq_refl).
Defined.

(** C7, refuted as stated.  [file:///x] has a list path and cannot have a
    username, password or port; the caller is same origin-domain; yet the
    host setter is no silent no-op there: it hands a navigation to the
    navigable. *)
Lemma set_host_navigates_on_portless_url :
  Location.relevant_document Demo.file_world
  = Some (Demo.document_at Demo.file_url true)
  /\ Location.same_origin_domain_with_entry
       (Demo.document_at Demo.file_url true) Demo.file_world = true
  /\ URL.cannot_have_a_username_or_password_or_port Demo.file_url = true
  /\ Location.set_host "h" Demo.file_world <> (Returned tt, Demo.file_world)
  /\ length (dispatched (snd (Location.set_host "h" Demo.file_world))) = 1.
Proof.
  split; [reflexivity | ]. split; [reflexivity | ]. split; [reflexivity | ].
  split; [ | reflexivity].
  intros Hrun.
  apply (f_equal (fun run => length (dispatched (snd run)))) in Hrun.
  vm_compute in Hrun. discriminate.
Qed.

(** On a Location as [initialize] leaves it, "valueOf" and the symbol
    [@@toPrimitive] are stored with configurable false and read back with
    configurable true; a key that was never a default is read back as
    stored. *)
Lemma get_own_property_forces_configurable_witness :
  option_map JS.configurable
             (Demo.lookup (Location.object Demo.initialized_location)
                          (JS.StringKey "valueOf"))
  = Some (Some false)
  /\ Location.internal_get_own_property true (JS.StringKey "valueOf")
                                        Demo.initialized_location
     = Returned (Some (JS.mkDescriptor (Some (JS.ObjectValue 1)) None None
                                       (Some false) (Some false) (Some true)))
  /\ option_map JS.configurable
                (Demo.lookup (Location.object Demo.initialized_location)
                             (JS.SymbolKey 7))
     = Some (Some false)
  /\ Location.internal_get_own_property true (JS.SymbolKey 7) Demo.initialized_location
     = Returned (Some (JS.mkDescriptor (Some JS.Undefined) None None
                                       (Some false) (Some false) (Some true)))
  /\ Location.internal_get_own_property true (JS.StringKey "other")
                                        Demo.initialized_location
     = Returned None.
Proof.
  split; [reflexivity | split; [ | split; [reflexivity | split]]].
  - refine (proj1 (proj1 (proj2 (get_own_property_forces_configurable
                                   true Demo.initialized_location
                                   (JS.StringKey "valueOf") _ eq_refl eq_refl))
                         _ _ eq_refl)).
    simpl. right. left. reflexivity.
  - refine (proj1 (proj1 (proj2 (get_own_property_forces_configurable
                                   true Demo.initialized_location
                                   (JS.SymbolKey 7) _ eq_refl eq_refl))
                         _ _ eq_refl)).
    simpl. right. right. left. reflexivity.
  - refine (proj1 (get_own_property_forces_configurable
                     true Demo.initialized_location (JS.StringKey "other")
                     None eq_refl eq_refl) _).
    simpl. intros [Hin | [Hin | [Hin | []]]]; discriminate.
Defined.

(** Without a document the href setter accepts a string no parse accepts. *)
Lemma set_href_without_document_returns_witness :
  encoding_parse_url (entry_settings_object Demo.detached_world) "::" = None
  /\ Location.set_href "::" Demo.detached_world = (Returned tt, Demo.detached_world).
Proof.
  split; [reflexivity | ].
  exact (proj1 (set_href_without_document_returns Demo.detached_world "::" eq_refl)).
Defined.

(** The empty string on [https://a.test:8080/p?q#f]: the query and the port
    go, also with a parser that fails on everything. *)
Lemma empty_value_clears_query_and_port_witness :
  Location.set_search EmptyString Demo.same_origin_world
  = Location.navigate (URL.set_query None Demo.example_url) Push Demo.same_origin_world
  /\ Location.set_port EmptyString Demo.same_origin_world
     = Location.navigate (URL.set_port None Demo.example_url) Push Demo.same_origin_world
  /\ @Location.set_search Demo.Origin Demo.failing_liburl Demo.platform EmptyString
                          Demo.same_origin_world
     = Location.set_search EmptyString Demo.same_origin_world.
Proof.
  destruct (@empty_value_clears_query_and_port
              Demo.Origin Demo.liburl Demo.platform
              Demo.same_origin_world (Demo.document_at Demo.example_url true)
              eq_refl eq_refl) as [[Hsearch _] [Hport Hany]].
  split; [exact Hsearch | split].
  - exact (proj1 (Hport eq_refl)).
  - exact (proj1 (Hany Demo.failing_liburl eq_refl)).
Defined.

(** * Further properties of the setters and methods *)

Section MoreLocationProperties.

Context {Origin : Type} {liburl : LibURL Origin} {platform : Platform Origin}.

Implicit Types (w : World Origin) (document : DOM.Document Origin).

(** Every setter run has one of four shapes: success with the world as it
    was; the same origin-domain SecurityError with the world as it was, which
    the href setter never gives; a SyntaxError with the world as it was,
    which only the href and protocol setters give; or one Location-object
    navigate, with the default mode, on a Location that has a document. *)
Lemma setter_shape (m : Location.Mutator) (value : string) w :
  Location.write m value w = (Returned tt, w)
  \/ (m <> Location.SetHref
      /\ (exists document,
             Location.relevant_document w = Some document
             /\ Location.same_origin_domain_with_entry document w = false)
      /\ Location.write m value w
         = (Thrown (SecurityError Location.not_same_origin_domain_message), w))
  \/ ((m = Location.SetHref \/ m = Location.SetProtocol)
      /\ exists text, Location.write m value w = (Thrown (SyntaxError text), w))
  \/ (exists document url,
         Location.relevant_document w = Some document
         /\ Location.write m value w
            = Location.navigate url default_history_handling w).
Proof.
  remember (Location.write m value w) as run eqn:Hrun.
  destruct (Location.relevant_document w) as [document | ] eqn:Hdoc.
  2: { left. subst run. destruct m; simpl;
         unfold Location.set_href, Location.set_protocol, Location.set_host,
           Location.set_hostname, Location.set_port, Location.set_pathname,
           Location.set_search, Location.set_hash;
         rewrite Hdoc; reflexivity. }
  assert (Hnavigate : forall url,
             run = Location.bind (Location.navigate url default_history_handling)
                                 (fun _ => Location.ret tt) w ->
             exists document' url',
               Some document = Some document'
               /\ run = Location.navigate url' default_history_handling w).
  { intros url ->. exists document, url.
    split; [reflexivity | apply try_then_return]. }
  assert (Hrefused : Location.same_origin_domain_with_entry document w = false ->
                     exists document',
                       Some document = Some document'
                       /\ Location.same_origin_domain_with_entry document' w = false).
  { intros Hsame. exists document. split; [reflexivity | exact Hsame]. }
  destruct m; simpl in Hrun.
  - unfold Location.set_href in Hrun. rewrite Hdoc in Hrun.
    destruct (encoding_parse_url (entry_settings_object w) value) as [url | ].
    + right; right; right. exact (Hnavigate url Hrun).
    + right; right; left. split; [left; reflexivity | eexists; exact Hrun].
  - unfold Location.set_protocol in Hrun. rewrite Hdoc in Hrun.
    destruct (Location.same_origin_domain_with_entry document w) eqn:Hsame;
      cbn [negb] in Hrun.
    + destruct (basic_parse (value ++ ":") (Location.url w) URL.SchemeStart)
        as [copy_url parsed].
      destruct parsed; cbn [negb] in Hrun.
      * destruct (String.eqb (URL.scheme copy_url) "http"
                  || String.eqb (URL.scheme copy_url) "https"); cbn [negb] in Hrun.
        -- right; right; right. exact (Hnavigate copy_url Hrun).
        -- left. exact Hrun.
      * right; right; left. split; [right; reflexivity | eexists; exact Hrun].
    + right; left. split; [discriminate | ]. split; [exact (Hrefused eq_refl) | exact Hrun].
  - unfold Location.set_host in Hrun. rewrite Hdoc in Hrun.
    destruct (Location.same_origin_domain_with_entry document w) eqn:Hsame;
      cbn [negb] in Hrun.
    + cbv zeta in Hrun. destruct (URL.has_an_opaque_path (Location.url w)).
      * left. exact Hrun.
      * right; right; right. exact (Hnavigate _ Hrun).
    + right; left. split; [discriminate | ]. split; [exact (Hrefused eq_refl) | exact Hrun].
  - unfold Location.set_hostname in Hrun. rewrite Hdoc in Hrun.
    destruct (Location.same_origin_domain_with_entry document w) eqn:Hsame;
      cbn [negb] in Hrun.
    + cbv zeta in Hrun. destruct (URL.has_an_opaque_path (Location.url w)).
      * left. exact Hrun.
      * right; right; right. exact (Hnavigate _ Hrun).
    + right; left. split; [discriminate | ]. split; [exact (Hrefused eq_refl) | exact Hrun].
  - unfold Location.set_port in Hrun. rewrite Hdoc in Hrun.
    destruct (Location.same_origin_domain_with_entry document w) eqn:Hsame;
      cbn [negb] in Hrun.
    + cbv zeta in Hrun.
      destruct (URL.cannot_have_a_username_or_password_or_port (Location.url w)).
      * left. exact Hrun.
      * right; right; right. exact (Hnavigate _ Hrun).
    + right; left. split; [discriminate | ]. split; [exact (Hrefused eq_refl) | exact Hrun].
  - unfold Location.set_pathname in Hrun. rewrite Hdoc in Hrun.
    destruct (Location.same_origin_domain_with_entry document w) eqn:Hsame;
      cbn [negb] in Hrun.
    + cbv zeta in Hrun. destruct (URL.has_an_opaque_path (Location.url w)).
      * left. exact Hrun.
      * right; right; right. exact (Hnavigate _ Hrun).
    + right; left. split; [discriminate | ]. split; [exact (Hrefused eq_refl) | exact Hrun].
  - unfold Location.set_search in Hrun. rewrite Hdoc in Hrun.
    destruct (Location.same_origin_domain_with_entry document w) eqn:Hsame;
      cbn [negb] in Hrun.
    + cbv zeta in Hrun. right; right; right. exact (Hnavigate _ Hrun).
    + right; left. split; [discriminate | ]. split; [exact (Hrefused eq_refl) | exact Hrun].
  - unfold Location.set_hash in Hrun. rewrite Hdoc in Hrun.
    destruct (Location.same_origin_domain_with_entry document w) eqn:Hsame;
      cbn [negb] in Hrun.
    + cbv zeta in Hrun. destruct (Location.optional_equals _ _).
      * left. exact Hrun.
      * right; right; right. exact (Hnavigate _ Hrun).
    + right; left. split; [discriminate | ]. split; [exact (Hrefused eq_refl) | exact Hrun].
Qed.

(** X1.  A setter that hands nothing to a navigable has returned success,
    or thrown the same origin-domain SecurityError (never the href setter),
    or thrown a SyntaxError (only the href and protocol setters), and has
    left the world as it was.  So no setter aborts by itself, the host,
    hostname, port, pathname, search and hash setters throw no SyntaxError
    of their own, and any other outcome is what the navigable returned. *)
Theorem setter_without_request_outcomes :
  forall (m : Location.Mutator) (value : string) w,
    dispatched (snd (Location.write m value w)) = dispatched w ->
    Location.write m value w = (Returned tt, w)
    \/ (m <> Location.SetHref
        /\ Location.write m value w
           = (Thrown (SecurityError Location.not_same_origin_domain_message), w))
    \/ ((m = Location.SetHref \/ m = Location.SetProtocol)
        /\ exists text, Location.write m value w = (Thrown (SyntaxError text), w)).
Proof.
  intros m value w Hnone.
  destruct (setter_shape m value w)
    as [Hreturn | [[Hm [_ Hrefused]] | [Hsyntax | [document [url [Hdoc Hnavigate]]]]]].
  - left. exact Hreturn.
  - right; left. split; assumption.
  - right; right. exact Hsyntax.
  - exfalso. rewrite Hnavigate in Hnone.
    exact (navigate_dispatches w document url default_history_handling Hdoc Hnone).
Qed.

(** Every call has one of three shapes: the world as it was; one
    Location-object navigate, asked for "replace" or the default mode, on a
    Location that has a document; or one reload of the document's navigable. *)
Lemma call_shape (c : Location.Call) w :
  snd (Location.run c w) = w
  \/ (exists document url mode,
         Location.relevant_document w = Some document
         /\ (mode = Replace \/ mode = default_history_handling)
         /\ Location.run c w = Location.navigate url mode w)
  \/ (exists document,
         Location.relevant_document w = Some document
         /\ snd (Location.run c w)
            = Location.Navigable_reload (DOM.navigable document) w).
Proof.
  destruct c as [m value | url | url | ]; simpl.
  - destruct (setter_shape m value w)
      as [Hrun | [[_ [_ Hrun]] | [[_ [text Hrun]] | [document [url [Hdoc Hrun]]]]]];
      try (left; rewrite Hrun; reflexivity).
    right; left. exists document, url, default_history_handling.
    split; [exact Hdoc | split; [right; reflexivity | exact Hrun]].
  - unfold Location.replace.
    destruct (Location.relevant_document w) as [document | ] eqn:Hdoc;
      [ | left; reflexivity].
    destruct (parse_url (entry_settings_object w) url) as [parsed | ];
      [ | left; reflexivity].
    right; left. exists document, parsed, Replace.
    split; [reflexivity | split; [left; reflexivity | apply try_then_return]].
  - unfold Location.assign.
    destruct (Location.relevant_document w) as [document | ] eqn:Hdoc;
      [ | left; reflexivity].
    destruct (Location.same_origin_domain_with_entry document w); cbn [negb];
      [ | left; reflexivity].
    destruct (parse_url (entry_settings_object w) url) as [parsed | ];
      [ | left; reflexivity].
    right; left. exists document, parsed, default_history_handling.
    split; [reflexivity | split; [right; reflexivity | apply try_then_return]].
  - unfold Location.reload.
    destruct (Location.relevant_document w) as [document | ] eqn:Hdoc;
      [ | left; reflexivity].
    right; right. exists document. split; reflexivity.
Qed.

Lemma with_own_dispatched w :
  with_dispatched (dispatched w ++ []) w = w.
Proof. destruct w. unfold with_dispatched. simpl. rewrite app_nil_r. reflexivity. Qed.

(** One call adds at most one request, made as a Location makes it, and
    changes nothing else of the world. *)
Lemma call_frame (c : Location.Call) w :
  exists requests,
    snd (Location.run c w) = with_dispatched (dispatched w ++ requests) w
    /\ length requests <= 1
    /\ Forall (Location.made_by_location w) requests.
Proof.
  destruct (call_shape c w)
    as [Hsame | [[document [url [mode [Hdoc [Hmode Hrun]]]]] | [document [Hdoc Hrun]]]].
  - exists []. rewrite Hsame, with_own_dispatched.
    split; [reflexivity | split; [simpl; lia | constructor]].
  - exists [NavigateRequest (HTML.navigable (relevant_global_object w))
                            (Location.navigate_params document w url mode)].
    rewrite Hrun, (navigate_run w document url mode Hdoc).
    split; [reflexivity | split; [simpl; lia | ]].
    constructor; [ | constructor]. simpl.
    split; [reflexivity | split; [reflexivity | split; [reflexivity | ]]].
    unfold Location.passed_history_handling.
    destruct (negb (DOM.is_completely_loaded document)
              && negb (has_transient_activation (incumbent_global_object w)));
      [left; reflexivity | exact Hmode].
  - exists [ReloadRequest (DOM.navigable document)].
    rewrite Hrun.
    split; [reflexivity | split; [simpl; lia | ]].
    constructor; [ | constructor]. simpl.
    exists document. split; [exact Hdoc | reflexivity].
Qed.

(** X2.  Whatever calls a script makes on a Location (setters, replace,
    assign, reload, in any order and whatever each returns or throws), the
    world it leaves differs from the one it started in only by the requests
    appended to those the navigables already had: the earlier requests are
    kept in order, at most one request is added per call, every navigation
    added goes to the navigable of the relevant global object with exceptions
    enabled, the incumbent global object's document as source and the mode
    "replace" or the default, and every reload added goes to the navigable of
    the relevant document. *)
Theorem calls_only_append_requests :
  forall (calls : list Location.Call) w,
    exists requests,
      Location.run_all calls w = with_dispatched (dispatched w ++ requests) w
      /\ length requests <= length calls
      /\ Forall (Location.made_by_location w) requests.
Proof.
  induction calls as [ | c rest IH]; intros w; simpl.
  - exists []. rewrite with_own_dispatched.
    split; [reflexivity | split; [simpl; lia | constructor]].
  - destruct (call_frame c w) as [first [Hfirst [Hone Hmade]]].
    rewrite Hfirst.
    destruct (IH (with_dispatched (dispatched w ++ first) w))
      as [others [Hothers [Hcount Hmade']]].
    exists (first ++ others)%list. rewrite Hothers.
    split; [ | split].
    + unfold with_dispatched. simpl. rewrite app_assoc. reflexivity.
    + rewrite length_app. lia.
    + apply Forall_app. split; [exact Hmade | exact Hmade'].
Qed.

(** X3.  With a document that is not same origin-domain with the entry
    settings object, every setter but the href setter throws the
    SecurityError and leaves the world as it was: whatever the value, before
    any structural guard, and whatever the parser would do. *)
Theorem component_setters_refuse_other_origins :
  forall (m : Location.Mutator) (value : string) w document,
    m <> Location.SetHref ->
    Location.relevant_document w = Some document ->
    Location.same_origin_domain_with_entry document w = false ->
    Location.write m value w
    = (Thrown (SecurityError Location.not_same_origin_domain_message), w).
Proof.
  intros m value w document Hm Hdoc Hsame.
  destruct m; try contradiction; simpl;
    unfold Location.set_protocol, Location.set_host, Location.set_hostname,
      Location.set_port, Location.set_pathname, Location.set_search,
      Location.set_hash;
    rewrite Hdoc, Hsame; reflexivity.
Qed.

(** X4.  The href setter makes no origin test.  With a document, of
    whatever origin, it throws its SyntaxError, dispatching nothing, when
    the encoding-parse of the value relative to the entry settings object
    fails, and otherwise runs Location-object navigate to the parsed URL with
    the default mode. *)
Theorem set_href_with_document :
  forall w document (new_href : string),
    Location.relevant_document w = Some document ->
    (encoding_parse_url (entry_settings_object w) new_href = None ->
     Location.set_href new_href w
     = (Thrown (SyntaxError ("Invalid URL '" ++ new_href ++ "'")), w))
    /\ (forall url,
           encoding_parse_url (entry_settings_object w) new_href = Some url ->
           Location.set_href new_href w
           = Location.navigate url default_history_handling w
           /\ dispatched (snd (Location.set_href new_href w))
              = (dispatched w
                 ++ [NavigateRequest
                       (HTML.navigable (relevant_global_object w))
                       (Location.navigate_params document w url
                                                 default_history_handling)])%list).
Proof.
  intros w document new_href Hdoc. unfold Location.set_href. rewrite Hdoc.
  split.
  - intros Hparse. rewrite Hparse. reflexivity.
  - intros url Hparse. rewrite Hparse, try_then_return.
    split; [reflexivity | ].
    rewrite (navigate_run w document url default_history_handling Hdoc). reflexivity.
Qed.

(** X6.  While the relevant document is not completely loaded and the
    incumbent global object has no transient activation, the mode a caller
    asks for makes no difference: every Location-object navigate runs as
    with "replace", so [assign], past its origin test, runs as [replace]. *)
Theorem loading_document_makes_assign_replace :
  forall w document,
    Location.relevant_document w = Some document ->
    DOM.is_completely_loaded document = false ->
    has_transient_activation (incumbent_global_object w) = false ->
    (forall (url : URL.t) (requested : NavigationHistoryBehavior),
        Location.navigate url requested w = Location.navigate url Replace w)
    /\ (Location.same_origin_domain_with_entry document w = true ->
        forall url : string, Location.assign url w = Location.replace url w).
Proof.
  intros w document Hdoc Hloaded Hactive.
  assert (Hmode : forall (url : URL.t) (requested : NavigationHistoryBehavior),
             Location.navigate url requested w = Location.navigate url Replace w).
  { intros url requested.
    rewrite (navigate_run w document url requested Hdoc),
            (navigate_run w document url Replace Hdoc).
    unfold Location.navigate_params, Location.passed_history_handling.
    rewrite Hloaded, Hactive. reflexivity. }
  split; [exact Hmode | ].
  intros Hsame url. unfold Location.assign, Location.replace.
  rewrite Hdoc, Hsame. cbn [negb].
  destruct (parse_url (entry_settings_object w) url) as [parsed | ];
    [ | reflexivity].
  rewrite !try_then_return. apply Hmode.
Qed.

(** X7.  The hash and search setters remove exactly one leading marker.
    Past the origin test, a value behind one "?" sets the search by reparsing
    that value as it is, and a value behind one "#" sets the hash by reparsing
    that value as it is, also when the value itself begins with the marker:
    only the first marker goes.  So a value and the same value behind one "#"
    set the same hash, and a non-empty value and the same value behind one
    "?" set the same search, when the value does not itself begin with the
    marker.  A lone "?" is not the empty string: it reparses the empty input
    onto a query reset to the empty string, where the empty string sets the
    query to null. *)
Theorem setters_strip_one_leading_marker :
  forall w (value : string),
    (AK.starts_with value "#" = false ->
     Location.set_hash ("#" ++ value) w = Location.set_hash value w)
    /\ (AK.starts_with value "?" = false ->
        AK.is_empty value = false ->
        Location.set_search ("?" ++ value) w = Location.set_search value w)
    /\ (forall document,
           Location.relevant_document w = Some document ->
           Location.same_origin_domain_with_entry document w = true ->
           Location.set_search "?" w
           = Location.navigate
               (fst (basic_parse EmptyString
                                 (URL.set_query (Some EmptyString) (DOM.url document))
                                 URL.Query))
               default_history_handling w
           /\ Location.set_search EmptyString w
              = Location.navigate (URL.set_query None (DOM.url document))
                                  default_history_handling w)
    /\ (forall document,
           Location.relevant_document w = Some document ->
           Location.same_origin_domain_with_entry document w = true ->
           Location.set_search ("?" ++ value) w
           = Location.navigate
               (fst (basic_parse value
                                 (URL.set_query (Some EmptyString) (DOM.url document))
                                 URL.Query))
               default_history_handling w
           /\ Location.set_hash ("#" ++ value) w
              = if Location.optional_equals
                     (URL.fragment
                        (fst (basic_parse
                                value
                                (URL.set_fragment (Some EmptyString) (DOM.url document))
                                URL.Fragment)))
                     (match URL.fragment (DOM.url document) with
                      | Some f => f
                      | None => EmptyString
                      end)
                then (Returned tt, w)
                else Location.navigate
                       (fst (basic_parse
                               value
                               (URL.set_fragment (Some EmptyString) (DOM.url document))
                               URL.Fragment))
                       default_history_handling w).
Proof.
  intros w value. split; [ | split; [ | split]].
  - intros Hstart. unfold Location.set_hash.
    change (AK.substring_view (AK.size_of_bool (AK.starts_with ("#" ++ value) "#"))
                              ("#" ++ value))
      with (Location.without_leading "#" (String "#" value)).
    change (AK.substring_view (AK.size_of_bool (AK.starts_with value "#")) value)
      with (Location.without_leading "#" value).
    rewrite without_leading_prefixed, (without_leading_other "#" value Hstart).
    reflexivity.
  - intros Hstart Hfull. unfold Location.set_search.
    change (AK.substring_view (AK.size_of_bool (AK.starts_with ("?" ++ value) "?"))
                              ("?" ++ value))
      with (Location.without_leading "?" (String "?" value)).
    change (AK.substring_view (AK.size_of_bool (AK.starts_with value "?")) value)
      with (Location.without_leading "?" value).
    rewrite without_leading_prefixed, (without_leading_other "?" value Hstart).
    rewrite Hfull. reflexivity.
  - intros document Hdoc Hsame. unfold Location.set_search.
    rewrite Hdoc, Hsame, (url_of_document w document Hdoc). cbn [negb].
    split; apply try_then_return.
  - intros document Hdoc Hsame. split.
    + unfold Location.set_search.
      rewrite Hdoc, Hsame, (url_of_document w document Hdoc). cbn [negb].
      change (AK.substring_view (AK.size_of_bool (AK.starts_with ("?" ++ value) "?"))
                                ("?" ++ value))
        with (Location.without_leading "?" (String "?" value)).
      rewrite without_leading_prefixed. apply try_then_return.
    + pose proof (set_hash_run w document ("#" ++ value) Hdoc Hsame) as Hrun.
      cbv zeta in Hrun.
      change ("#" ++ value) with (String "#" value) in Hrun at 2 3.
      rewrite without_leading_prefixed in Hrun. exact Hrun.
Qed.

(** X8.  A Location without a relevant document (no browsing context, or a
    browsing context without an active document) answers every getter from
    the about:blank URL, with no origin test and so no SecurityError
    whoever asks: the protocol is "about:", and host, hostname, port, search
    and hash are empty. *)
Theorem getters_without_document_show_about_blank :
  forall w,
    (browsing_context (relevant_global_object w) = None
     \/ exists context,
          browsing_context (relevant_global_object w) = Some context
          /\ active_document context = None) ->
    Location.relevant_document w = None
    /\ (forall a : Location.Accessor,
           Location.read a w = Returned (Location.component a URL.about_blank))
    /\ Location.protocol w = Returned "about:"
    /\ Location.host w = Returned EmptyString
    /\ Location.hostname w = Returned EmptyString
    /\ Location.port w = Returned EmptyString
    /\ Location.search w = Returned EmptyString
    /\ Location.hash w = Returned EmptyString.
Proof.
  intros w Hnone.
  assert (Hdoc : Location.relevant_document w = None).
  { unfold Location.relevant_document.
    destruct Hnone as [Hcontext | [context [Hcontext Hactive]]];
      rewrite Hcontext; [reflexivity | exact Hactive]. }
  assert (Hgate : Location.document_is_not_same_origin_domain w = false).
  { unfold Location.document_is_not_same_origin_domain. rewrite Hdoc. reflexivity. }
  assert (Hurl : Location.url w = URL.about_blank).
  { unfold Location.url. rewrite Hdoc. reflexivity. }
  assert (Hread : forall a : Location.Accessor,
             Location.read a w = Returned (Location.component a URL.about_blank)).
  { intros a. destruct a; simpl;
      unfold Location.href, Location.origin, Location.protocol, Location.host,
        Location.hostname, Location.port, Location.pathname, Location.search,
        Location.hash;
      rewrite Hgate, Hurl; reflexivity. }
  split; [exact Hdoc | split; [exact Hread | ]].
  split; [exact (Hread Location.Protocol) | ].
  split; [exact (Hread Location.Host) | ].
  split; [exact (Hread Location.Hostname) | ].
  split; [exact (Hread Location.Port) | ].
  split; [exact (Hread Location.Search) | exact (Hread Location.Hash)].
Qed.

(** X5.  Except in the protocol setter, whether a state-override parse
    reports failure is of no consequence: two parsers that leave the same
    record behind on every input, and an origin predicate of the same
    verdicts, give the same run of every other setter, one of them reporting
    failure where the other reports success or not. *)
Theorem parse_failure_is_absorbed :
  forall (other : LibURL Origin) (m : Location.Mutator) (value : string) w,
    m <> Location.SetProtocol ->
    (forall a b : Origin,
        @is_same_origin_domain Origin other a b
        = @is_same_origin_domain Origin liburl a b) ->
    (forall (input : string) (u : URL.t) (state : URL.State),
        fst (@basic_parse Origin other input u state)
        = fst (@basic_parse Origin liburl input u state)) ->
    @Location.write Origin other platform m value w
    = @Location.write Origin liburl platform m value w.
Proof.
  intros other m value w Hm Horigin Hrecord.
  destruct m; try contradiction; simpl;
    unfold Location.set_host, Location.set_hostname, Location.set_port,
      Location.set_pathname, Location.set_search, Location.set_hash,
      Location.same_origin_domain_with_entry;
    try reflexivity;
    destruct (Location.relevant_document w) as [document | ]; try reflexivity;
    rewrite Horigin, ?Hrecord; reflexivity.
Qed.

Lemma number_is_not_empty (n : N) : AK.is_empty (AK.number n) = false.
Proof.
  unfold AK.number, NilZero.string_of_uint.
  destruct (N.to_uint n); reflexivity.
Qed.

(** X14.  The getters agree with each other.  All nine make the same test,
    so on one world either every getter throws the SecurityError or none
    does; and when none does, and the URL has a host or has no port, host is
    hostname alone when port reads empty and hostname, ":" and port
    otherwise. *)
Theorem getters_are_consistent :
  forall w,
    (forall a b : Location.Accessor,
        is_security_error (Location.read a w) = is_security_error (Location.read b w))
    /\ (forall name number : string,
           Location.hostname w = Returned name ->
           Location.port w = Returned number ->
           URL.host (Location.url w) <> None \/ URL.port (Location.url w) = None ->
           Location.host w
           = Returned (if AK.is_empty number then name else name ++ ":" ++ number)).
Proof.
  intros w. split.
  - intros a b.
    destruct a, b; simpl;
      unfold Location.href, Location.origin, Location.protocol, Location.host,
        Location.hostname, Location.port, Location.pathname, Location.search,
        Location.hash;
      destruct (Location.document_is_not_same_origin_domain w); try reflexivity;
      cbv zeta;
      repeat match goal with
             | |- context [match ?x with _ => _ end] => destruct x
             end;
      reflexivity.
  - intros name number. unfold Location.hostname, Location.port, Location.host.
    destruct (Location.document_is_not_same_origin_domain w); [discriminate | ].
    cbv zeta.
    destruct (URL.host (Location.url w)) as [h | ];
      destruct (URL.port (Location.url w)) as [p | ];
      intros Hname Hnumber Hshape;
      injection Hname as <-; injection Hnumber as <-.
    + rewrite number_is_not_empty. reflexivity.
    + reflexivity.
    + destruct Hshape as [Hhost | Hport]; [contradiction | discriminate].
    + reflexivity.
Qed.

(** X15.  The search and hash getters never return the bare marker: what
    they return is the empty string, for an absent and for an empty
    component alike, or the marker followed by at least one character. *)
Theorem search_and_hash_are_empty_or_marked :
  forall w (shown : string),
    (Location.search w = Returned shown ->
     shown = EmptyString \/ exists c rest, shown = "?" ++ String c rest)
    /\ (Location.hash w = Returned shown ->
        shown = EmptyString \/ exists c rest, shown = "#" ++ String c rest).
Proof.
  intros w shown. unfold Location.search, Location.hash.
  destruct (Location.document_is_not_same_origin_domain w);
    [split; discriminate | ].
  cbv zeta. split.
  - destruct (URL.query (Location.url w)) as [[ | c rest] | ]; simpl;
      intros Hshown; injection Hshown as <-;
      [left | right; exists c, rest | left]; reflexivity.
  - destruct (URL.fragment (Location.url w)) as [[ | c rest] | ]; simpl;
      intros Hshown; injection Hshown as <-;
      [left | right; exists c, rest | left]; reflexivity.
Qed.

(** X16.  A setter that has handed a request to the navigable returns what
    the navigable returned, as it is: success, the navigable's exception, or
    its abort.  The request is a single navigation with exceptions enabled,
    added after the requests there were. *)
Theorem setter_returns_what_navigable_returns :
  forall (m : Location.Mutator) (value : string) w,
    dispatched (snd (Location.write m value w)) <> dispatched w ->
    exists params,
      fst (Location.write m value w)
      = navigate_outcome w (HTML.navigable (relevant_global_object w)) params
      /\ dispatched (snd (Location.write m value w))
         = (dispatched w
            ++ [NavigateRequest (HTML.navigable (relevant_global_object w)) params])%list
      /\ exceptions_enabled params = true.
Proof.
  intros m value w Hsome.
  destruct (setter_shape m value w)
    as [Hrun | [[_ [_ Hrun]] | [[_ [text Hrun]] | [document [url [Hdoc Hrun]]]]]];
    try (rewrite Hrun in Hsome; contradiction).
  exists (Location.navigate_params document w url default_history_handling).
  rewrite Hrun, (navigate_run w document url default_history_handling Hdoc).
  split; [reflexivity | split; reflexivity].
Qed.

End MoreLocationProperties.

Section MoreObjectProperties.

Context {Object VM : Type} {libjs : LibJS Object VM}
        {libjsobject : LibJSObject Object VM}.

Implicit Types (this : Location.t Object) (vm : VM).

(** X9.  To a caller that is not same origin with the Location object the
    object is closed: defining or deleting any property throws a
    SecurityError and leaves the object and its default properties as they
    were, the prototype reads as null, and the keys are those of the
    cross-origin enumeration, not the object's own. *)
Theorem cross_origin_caller_cannot_change_object :
  forall vm this (key : JS.PropertyKey) (descriptor : JS.PropertyDescriptor),
    is_platform_object_same_origin vm (Location.object this) = false ->
    (exists text,
        Location.internal_define_own_property vm key descriptor this
        = (Thrown (SecurityError text), this))
    /\ (exists text,
           Location.internal_delete vm key this = (Thrown (SecurityError text), this))
    /\ Location.internal_get_prototype_of vm this = Returned None
    /\ Location.internal_own_property_keys vm this
       = Returned (cross_origin_own_property_keys (Location.object this)).
Proof.
  intros vm this key descriptor Hcross.
  unfold Location.internal_define_own_property, Location.internal_delete,
    Location.internal_get_prototype_of, Location.internal_own_property_keys.
  rewrite Hcross.
  split; [eexists; reflexivity | split; [eexists; reflexivity | split; reflexivity]].
Qed.

(** X10.  For a caller that is not same origin, [[GetOwnProperty]] answers
    from the cross-origin helper, and from the cross-origin fallback when the
    helper has nothing: the descriptor is passed on as it is, and neither the
    default properties nor their configurable override play a part. *)
Theorem cross_origin_get_own_property_ignores_defaults :
  forall vm this (P : JS.PropertyKey),
    is_platform_object_same_origin vm (Location.object this) = false ->
    (forall property,
        cross_origin_get_own_property_helper vm (Location.object this) P = Some property ->
        Location.internal_get_own_property vm P this = Returned (Some property))
    /\ (cross_origin_get_own_property_helper vm (Location.object this) P = None ->
        Location.internal_get_own_property vm P this
        = cross_origin_property_fallback vm P)
    /\ (forall defaults : list JS.Value,
           Location.internal_get_own_property
             vm P (Location.mk (Location.object this) defaults)
           = Location.internal_get_own_property vm P this).
Proof.
  intros vm this P Hcross. unfold Location.internal_get_own_property.
  simpl. rewrite Hcross.
  split; [ | split].
  - intros property Hhelper. rewrite Hhelper. reflexivity.
  - intros Hhelper. rewrite Hhelper. reflexivity.
  - intros defaults. reflexivity.
Qed.

(** X11.  For a same-origin caller, defining, deleting and setting a
    property, reading one, enumerating the keys and reading the prototype
    are the operations of the base object: [[DefineOwnProperty]] hands every
    key to the ordinary definition, a default property like any other, and
    none of them changes the default properties. *)
Theorem same_origin_operations_are_ordinary :
  forall vm this (key : JS.PropertyKey) (descriptor : JS.PropertyDescriptor)
         (value receiver : JS.Value),
    is_platform_object_same_origin vm (Location.object this) = true ->
    Location.internal_define_own_property vm key descriptor this
    = (fst (Object_internal_define_own_property (Location.object this) key descriptor),
       Location.mk
         (snd (Object_internal_define_own_property (Location.object this) key descriptor))
         (Location.m_default_properties this))
    /\ Location.internal_delete vm key this
       = (fst (Object_internal_delete (Location.object this) key),
          Location.mk (snd (Object_internal_delete (Location.object this) key))
                      (Location.m_default_properties this))
    /\ Location.internal_set vm key value receiver this
       = (fst (Object_internal_set (Location.object this) key value receiver),
          Location.mk (snd (Object_internal_set (Location.object this) key value receiver))
                      (Location.m_default_properties this))
    /\ Location.internal_get vm key receiver this
       = Object_internal_get (Location.object this) key receiver
    /\ Location.internal_own_property_keys vm this
       = Object_internal_own_property_keys (Location.object this)
    /\ Location.internal_get_prototype_of vm this
       = Location.MUST (Object_internal_get_prototype_of (Location.object this)).
Proof.
  intros vm this key descriptor value receiver Hsame.
  unfold Location.internal_define_own_property, Location.internal_delete,
    Location.internal_set, Location.internal_get, Location.internal_own_property_keys,
    Location.internal_get_prototype_of.
  rewrite Hsame.
  split; [ | split; [ | split; [ | split; [ | split]]]]; try reflexivity.
  - destruct (Object_internal_define_own_property _ key descriptor); reflexivity.
  - destruct (Object_internal_delete _ key); reflexivity.
  - destruct (Object_internal_set _ key value receiver); reflexivity.
Qed.

(** X12.  After [initialize] has returned, every key (string, index or
    symbol) that the ordinary enumeration of the object then lists is a
    default property: read by a same-origin caller, its ordinary descriptor
    comes back with configurable true. *)
Theorem initialized_own_keys_read_configurable :
  forall vm this0 this (keys : list JS.Value) (P : JS.PropertyKey)
         (d : JS.PropertyDescriptor),
    Location.initialize vm this0 = (Returned tt, this) ->
    Object_internal_own_property_keys (Location.object this) = Returned keys ->
    In (JS.listed_as P) keys ->
    is_platform_object_same_origin vm (Location.object this) = true ->
    Object_internal_get_own_property (Location.object this) P = Returned (Some d) ->
    Location.internal_get_own_property vm P this
    = Returned (Some (JS.set_configurable true d)).
Proof.
  intros vm this0 this keys P d Hinit Hkeys Hin Hsame Hordinary.
  destruct (initialize_captures_own_keys vm this0 this Hinit) as [keys' [Hkeys' Hdefaults]].
  rewrite Hkeys in Hkeys'. injection Hkeys' as <-.
  assert (Hdefault : AK.contains_slow JS.Value_eqb (Location.m_default_properties this)
                                      (Location.property_key_value P) = true).
  { apply contains_slow_In. rewrite searched_value_is_listed_value, Hdefaults.
    apply in_or_app. right. exact Hin. }
  unfold Location.internal_get_own_property.
  rewrite Hsame, Hordinary. simpl. rewrite Hdefault. reflexivity.
Qed.

(** X13.  [initialize] and [[SetPrototypeOf]] throw nothing into the
    script: each returns or aborts.  [initialize] aborts when the caller is
    not same origin with the object the bindings prepared, since its two
    definitions go through the Location's own [[DefineOwnProperty]]. *)
Theorem initialize_returns_or_aborts :
  forall vm this (prototype : option N),
    (fst (Location.initialize vm this) = Returned tt
     \/ fst (Location.initialize vm this) = Crashed)
    /\ (is_platform_object_same_origin
          vm (define_unforgeable_attributes
                (Base_initialize (set_prototype_for_interface (Location.object this))))
        = false ->
        fst (Location.initialize vm this) = Crashed)
    /\ (forall exception,
           Location.internal_set_prototype_of prototype this <> Thrown exception).
Proof.
  intros vm this prototype. split; [ | split].
  - unfold Location.initialize.
    destruct (Location.internal_define_own_property vm (JS.StringKey "valueOf") _ _)
      as [[defined | e | ] middle]; try (right; reflexivity).
    destruct (Location.internal_define_own_property
                vm (well_known_symbol_to_primitive vm) _ middle)
      as [[defined' | e | ] last]; try (right; reflexivity).
    destruct (Object_internal_own_property_keys (Location.object last))
      as [keys | e | ]; simpl; [left | right | right]; reflexivity.
  - intros Hcross.
    unfold Location.initialize, Location.internal_define_own_property.
    cbn [Location.object]. rewrite Hcross. reflexivity.
  - intros exception. unfold Location.internal_set_prototype_of.
    destruct (Object_set_immutable_prototype (Location.object this) prototype);
      simpl; discriminate.
Qed.

End MoreObjectProperties.

(** * The further properties on concrete worlds *)

(** The port setter on [file:///x] dispatches nothing and has returned
    success. *)
Lemma setter_without_request_outcomes_witness :
  Location.write Location.SetPort "81" Demo.file_world = (Returned tt, Demo.file_world)
  \/ (Location.SetPort <> Location.SetHref
      /\ Location.write Location.SetPort "81" Demo.file_world
         = (Thrown (SecurityError Location.not_same_origin_domain_message),
            Demo.file_world))
  \/ ((Location.SetPort = Location.SetHref \/ Location.SetPort = Location.SetProtocol)
      /\ exists text,
           Location.write Location.SetPort "81" Demo.file_world
           = (Thrown (SyntaxError text), Demo.file_world)).
Proof.
  exact (@setter_without_request_outcomes
           Demo.Origin Demo.liburl Demo.platform
           Location.SetPort "81" Demo.file_world eq_refl).
Defined.

(** The host setter on [mailto:x], whose path is opaque, called from
    another origin: the refusal comes first. *)
Lemma component_setters_refuse_other_origins_witness :
  Location.write Location.SetHost "h" Demo.mailto_other_origin_world
  = (Thrown (SecurityError Location.not_same_origin_domain_message),
     Demo.mailto_other_origin_world).
Proof.
  refine (@component_setters_refuse_other_origins
            Demo.Origin Demo.liburl Demo.platform
            Location.SetHost "h" Demo.mailto_other_origin_world
            (Demo.document_at Demo.mailto_url true)
            _ eq_refl eq_refl).
  discriminate.
Defined.

(** The href setter called from another origin: a bad URL is a SyntaxError,
    a good one navigates. *)
Lemma set_href_with_document_witness :
  Location.set_href "::" Demo.cross_origin_world
  = (Thrown (SyntaxError "Invalid URL '::'"), Demo.cross_origin_world)
  /\ map (fun request =>
            match request with
            | NavigateRequest _ params => Some (Demo.serialize_text (params_url params))
            | ReloadRequest _ => None
            end)
         (dispatched (snd (Location.set_href "https://b.test" Demo.cross_origin_world)))
     = [Some "https://b.test/"].
Proof.
  split.
  - exact (proj1 (@set_href_with_document
                    Demo.Origin Demo.platform Demo.cross_origin_world
                    (Demo.document_at Demo.example_url true) "::" eq_refl) eq_refl).
  - destruct (proj2 (@set_href_with_document
                       Demo.Origin Demo.platform Demo.cross_origin_world
                       (Demo.document_at Demo.example_url true) "https://b.test" eq_refl)
                    _ eq_refl) as [_ Hrequests].
    rewrite Hrequests. reflexivity.
Defined.

(** A port out of range under a parser that reports every input as failed. *)
Lemma parse_failure_is_absorbed_witness :
  @Location.write Demo.Origin Demo.pessimistic_liburl Demo.platform
                  Location.SetPort "99999" Demo.same_origin_world
  = @Location.write Demo.Origin Demo.liburl Demo.platform
                    Location.SetPort "99999" Demo.same_origin_world.
Proof.
  refine (@parse_failure_is_absorbed
            Demo.Origin Demo.liburl Demo.platform Demo.pessimistic_liburl
            Location.SetPort "99999" Demo.same_origin_world _ _ _).
  - discriminate.
  - intros a b. reflexivity.
  - intros input u state. reflexivity.
Defined.

(** [assign] on a document still loading, without activation. *)
Lemma loading_document_makes_assign_replace_witness :
  Location.assign "https://b.test" Demo.loading_world
  = Location.replace "https://b.test" Demo.loading_world.
Proof.
  exact (proj2 (@loading_document_makes_assign_replace
                  Demo.Origin Demo.liburl Demo.platform Demo.loading_world
                  (Demo.document_at Demo.example_url false) eq_refl eq_refl eq_refl)
               eq_refl "https://b.test").
Defined.

(** "#x" and "x" set the same hash, "?x" and "x" the same search; "??x"
    sets the query "?x" and "##x" the fragment "#x". *)
Lemma setters_strip_one_leading_marker_witness :
  Location.set_hash "#x" Demo.same_origin_world
  = Location.set_hash "x" Demo.same_origin_world
  /\ Location.set_search "?x" Demo.same_origin_world
     = Location.set_search "x" Demo.same_origin_world
  /\ map (fun request =>
            match request with
            | NavigateRequest _ params => URL.query (params_url params)
            | ReloadRequest _ => None
            end)
         (dispatched (snd (Location.set_search "??x" Demo.same_origin_world)))
     = [Some "?x"]
  /\ map (fun request =>
            match request with
            | NavigateRequest _ params => URL.fragment (params_url params)
            | ReloadRequest _ => None
            end)
         (dispatched (snd (Location.set_hash "##x" Demo.same_origin_world)))
     = [Some "#x"].
Proof.
  pose proof (@setters_strip_one_leading_marker
                Demo.Origin Demo.liburl Demo.platform Demo.same_origin_world "x")
    as [Hhash [Hsearch _]].
  destruct (@setters_strip_one_leading_marker
              Demo.Origin Demo.liburl Demo.platform Demo.same_origin_world "?x")
    as [_ [_ [_ Hquery]]].
  destruct (@setters_strip_one_leading_marker
              Demo.Origin Demo.liburl Demo.platform Demo.same_origin_world "#x")
    as [_ [_ [_ Hfragment]]].
  split; [exact (Hhash eq_refl) | split; [exact (Hsearch eq_refl eq_refl) | split]].
  - change (Location.set_search "??x" Demo.same_origin_world)
      with (Location.set_search ("?" ++ "?x") Demo.same_origin_world).
    rewrite (proj1 (Hquery (Demo.document_at Demo.example_url true) eq_refl eq_refl)).
    reflexivity.
  - change (Location.set_hash "##x" Demo.same_origin_world)
      with (Location.set_hash ("#" ++ "#x") Demo.same_origin_world).
    rewrite (proj2 (Hfragment (Demo.document_at Demo.example_url true) eq_refl eq_refl)).
    reflexivity.
Defined.

(** A Location whose browsing context has no active document, read from
    another origin. *)
Lemma getters_without_document_show_about_blank_witness :
  Location.read Location.Href Demo.detached_world = Returned "about:blank"
  /\ Location.protocol Demo.empty_context_world = Returned "about:".
Proof.
  split.
  - exact (proj1 (proj2 (@getters_without_document_show_about_blank
                           Demo.Origin Demo.liburl Demo.detached_world
                           (or_introl eq_refl)))
                 Location.Href).
  - refine (proj1 (proj2 (proj2 (@getters_without_document_show_about_blank
                                   Demo.Origin Demo.liburl Demo.empty_context_world
                                   (or_intror _))))).
    exists (mkBrowsingContext None). split; reflexivity.
Defined.

(** The getters on [https://a.test:8080/p?q#f]. *)
Lemma getters_are_consistent_witness :
  Location.host Demo.same_origin_world = Returned "a.test:8080".
Proof.
  refine (proj2 (@getters_are_consistent Demo.Origin Demo.liburl Demo.same_origin_world)
                "a.test" "8080" eq_refl eq_refl (or_introl _)).
  discriminate.
Defined.

(** The hash of [https://a.test:8080/p?q#f]. *)
Lemma search_and_hash_are_empty_or_marked_witness :
  "#f" = EmptyString \/ exists c rest, "#f" = "#" ++ String c rest.
Proof.
  exact (proj2 (@search_and_hash_are_empty_or_marked
                  Demo.Origin Demo.liburl Demo.same_origin_world "#f") eq_refl).
Defined.

(** Navigables that refuse: the hash setter throws their exception. *)
Lemma setter_returns_what_navigable_returns_witness :
  fst (@Location.write Demo.Origin Demo.liburl Demo.refusing_platform
                       Location.SetHash "x" Demo.same_origin_world)
  = Thrown (SecurityError "Source document's node navigable is not allowed to navigate").
Proof.
  assert (Hsome : dispatched
                    (snd (@Location.write Demo.Origin Demo.liburl Demo.refusing_platform
                                          Location.SetHash "x" Demo.same_origin_world))
                  <> dispatched Demo.same_origin_world).
  { intros Hnone. apply (f_equal (@length _)) in Hnone.
    vm_compute in Hnone. discriminate. }
  destruct (@setter_returns_what_navigable_returns
              Demo.Origin Demo.liburl Demo.refusing_platform
              Location.SetHash "x" Demo.same_origin_world Hsome)
    as [params [Hresult _]].
  rewrite Hresult. reflexivity.
Defined.

(** From another origin, "valueOf" can be neither defined nor deleted on an
    initialized Location, and its prototype reads as null. *)
Lemma cross_origin_caller_cannot_change_object_witness :
  snd (Location.internal_delete false (JS.StringKey "valueOf") Demo.initialized_location)
  = Demo.initialized_location
  /\ Location.internal_get_prototype_of false Demo.initialized_location = Returned None
  /\ Location.internal_own_property_keys false Demo.initialized_location
     = Returned [JS.StringValue "href"; JS.StringValue "replace"].
Proof.
  destruct (@cross_origin_caller_cannot_change_object
              Demo.Object bool Demo.libjs Demo.libjsobject
              false Demo.initialized_location (JS.StringKey "valueOf")
              (JS.mkDescriptor None None None None None None) eq_refl)
    as [_ [[text Hdelete] [Hprototype Hkeys]]].
  split; [rewrite Hdelete; reflexivity | split; [exact Hprototype | exact Hkeys]].
Defined.

(** From another origin, "valueOf", a default property, is not found. *)
Lemma cross_origin_get_own_property_ignores_defaults_witness :
  Location.internal_get_own_property false (JS.StringKey "valueOf")
                                     Demo.initialized_location
  = Returned None.
Proof.
  exact (proj1 (proj2 (@cross_origin_get_own_property_ignores_defaults
                         Demo.Object bool Demo.libjs
                         false Demo.initialized_location (JS.StringKey "valueOf")
                         eq_refl))
               eq_refl).
Defined.

(** From the same origin, redefining "valueOf" is the ordinary definition,
    which keeps the non-configurable property. *)
Lemma same_origin_operations_are_ordinary_witness :
  Location.internal_define_own_property
    true (JS.StringKey "valueOf")
    (JS.mkDescriptor (Some JS.Undefined) None None None None None)
    Demo.initialized_location
  = (Returned false, Demo.initialized_location)
  /\ Location.internal_own_property_keys true Demo.initialized_location
     = Returned [JS.StringValue "href"; JS.StringValue "valueOf"; JS.SymbolValue 7].
Proof.
  destruct (@same_origin_operations_are_ordinary
              Demo.Object bool Demo.libjs Demo.libjsobject
              true Demo.initialized_location (JS.StringKey "valueOf")
              (JS.mkDescriptor (Some JS.Undefined) None None None None None)
              JS.Undefined JS.Undefined eq_refl)
    as [Hdefine [_ [_ [_ [Hkeys _]]]]].
  split; [exact Hdefine | exact Hkeys].
Defined.

(** "href", defined by the bindings before [initialize] stored the keys,
    and the symbol [@@toPrimitive], defined by [initialize] itself, read back
    configurable. *)
Lemma initialized_own_keys_read_configurable_witness :
  Location.internal_get_own_property true (JS.StringKey "href") Demo.initialized_location
  = Returned (Some (JS.set_configurable true (snd Demo.href_attribute)))
  /\ Location.internal_get_own_property true (JS.SymbolKey 7) Demo.initialized_location
     = Returned (Some (JS.mkDescriptor (Some JS.Undefined) None None
                                       (Some false) (Some false) (Some true))).
Proof.
  split.
  - refine (@initialized_own_keys_read_configurable
              Demo.Object bool Demo.libjs
              true (Location.mk [] []) Demo.initialized_location
              [JS.StringValue "href"; JS.StringValue "valueOf"; JS.SymbolValue 7]
              (JS.StringKey "href") (snd Demo.href_attribute)
              eq_refl eq_refl _ eq_refl eq_refl).
    simpl. left. reflexivity.
  - refine (@initialized_own_keys_read_configurable
              Demo.Object bool Demo.libjs
              true (Location.mk [] []) Demo.initialized_location
              [JS.StringValue "href"; JS.StringValue "valueOf"; JS.SymbolValue 7]
              (JS.SymbolKey 7)
              (JS.mkDescriptor (Some JS.Undefined) None None
                               (Some false) (Some false) (Some false))
              eq_refl eq_refl _ eq_refl eq_refl).
    simpl. right. right. left. reflexivity.
Defined.

(** [initialize] entered from another origin aborts. *)
Lemma initialize_returns_or_aborts_witness :
  fst (Location.initialize false (Location.mk ([] : Demo.Object) [])) = Crashed.
Proof.
  exact (proj1 (proj2 (@initialize_returns_or_aborts
                         Demo.Object bool Demo.libjs Demo.libjsobject
                         false (Location.mk [] []) None))
               eq_refl).
Defined.
